(** * Health monitor: series merge, threshold evaluation, alert composition

    A shallow embedding of the pure core of [azure.healthcare_.py]
    ([save_to_csv], [evaluate_alerts], [shorten_message],
    [create_alert_message], the chunking of [send_twilio_alert] and the
    resolution of [TRIAL_ACCOUNT]) together with the properties the
    design document states about it.

    Conventions.
    - A Python [str] is a list of Unicode code points, so that [len]
      counts what Python's [len] counts (the message template contains the
      non-ASCII character U+2082).
    - Python objects whose type the program does not fix (sample values)
      live in an abstract type [pyobj]; the builtins the program applies to
      them ([float], [format]) are the fields of the class [Builtins].
    - A Python [float] is an IEEE-754 value of [spec_float]; [<=] and [>=]
      are [SFleb], which is false as soon as one side is NaN.
    - Module-level configuration read from the environment is the record
      [Config]. *)

From Stdlib Require Import ZArith NArith List Bool Lia Ascii String Decimal.
From Stdlib Require Import Sorting.Sorted Permutation.
From Stdlib Require Import Floats.SpecFloat.
Import ListNotations.

Local Open Scope Z_scope.

(* ================================================================== *)
(** * Part I: the program *)
(* ================================================================== *)

(** ** Python strings *)

Definition char := N.
Definition str := list char.

(** An ASCII literal of the source. *)
Definition lit (s : string) : str := map N_of_ascii (list_ascii_of_string s).
Arguments lit s%_string.

(** The empty string. *)
Definition empty_str : str := [].

(** Python's [len]. *)
Definition len (s : str) : Z := Z.of_nat (List.length s).

Definition str_eq_dec : forall a b : str, {a = b} + {a <> b} :=
  list_eq_dec N.eq_dec.

(** Non-ASCII characters of the source's templates. *)
Definition SUBSCRIPT_TWO : char := 8322%N.   (* U+2082 *)
Definition LESS_EQUAL : char := 8804%N.      (* U+2264 *)
Definition GREATER_EQUAL : char := 8805%N.   (* U+2265 *)

(** The slice [s[:stop]]: a negative [stop] counts from the end, and both
    ends are clamped to the string. *)
Definition slice_to (s : str) (stop : Z) : str :=
  let stop' := if stop <? 0 then Z.max (len s + stop) 0 else Z.min stop (len s) in
  firstn (Z.to_nat stop') s.

(** Comparison of strings, code point by code point; a proper prefix is
    smaller. *)
Fixpoint str_compare (a b : str) : comparison :=
  match a, b with
  | [], [] => Eq
  | [], _ :: _ => Lt
  | _ :: _, [] => Gt
  | x :: a', y :: b' =>
      match N.compare x y with
      | Eq => str_compare a' b'
      | c => c
      end
  end.

Definition str_ltb (a b : str) : bool :=
  match str_compare a b with Lt => true | _ => false end.

Definition str_lt (a b : str) : Prop := str_compare a b = Lt.

(** Decimal rendering of an integer, as [format] gives it. *)
Fixpoint str_of_uint (d : Decimal.uint) : str :=
  match d with
  | Nil => []
  | D0 d => 48%N :: str_of_uint d
  | D1 d => 49%N :: str_of_uint d
  | D2 d => 50%N :: str_of_uint d
  | D3 d => 51%N :: str_of_uint d
  | D4 d => 52%N :: str_of_uint d
  | D5 d => 53%N :: str_of_uint d
  | D6 d => 54%N :: str_of_uint d
  | D7 d => 55%N :: str_of_uint d
  | D8 d => 56%N :: str_of_uint d
  | D9 d => 57%N :: str_of_uint d
  end.

Definition str_of_nat (n : nat) : str := str_of_uint (Nat.to_uint n).

Definition str_of_Z (z : Z) : str :=
  match Z.to_int z with
  | Decimal.Pos d => str_of_uint d
  | Decimal.Neg d => 45%N :: str_of_uint d
  end.

(** [str.lower] on the letters A-Z.  Python also maps non-ASCII capitals,
    but the only ones whose lower case contains an ASCII character are
    U+212A (to [k]) and U+0130 (to [i] and a combining dot), and neither
    letter occurs in the words [TRIAL_ACCOUNT] is compared with. *)
Definition lower_char (c : char) : char :=
  if ((65 <=? c) && (c <=? 90))%N then (c + 32)%N else c.

Definition lower (s : str) : str := map lower_char s.

(** ** Builtins applied to dynamically typed values *)

Class Builtins (pyobj : Type) := {
  (** [float(v)]; [None] when it raises. *)
  py_float : pyobj -> option spec_float;
  (** [format(v)] with no format spec, what an f-string field [{v}] renders. *)
  py_format : pyobj -> str;
  (** the same for a value known to be a [float] (a threshold). *)
  py_format_float : spec_float -> str;
  (** a [str] seen as an object. *)
  py_of_str : str -> pyobj
}.

(** ** Configuration *)

Record Config := {
  HR_LOW_THRESHOLD : spec_float;
  SPO2_LOW_THRESHOLD : spec_float;
  HR_HIGH_THRESHOLD : option spec_float;
  TRIAL_ACCOUNT : bool;
  SMS_CHAR_LIMIT : Z
}.

(** [os.getenv(name, default)] for a variable whose value, if set, is [v]. *)
Definition getenv (v : option str) (default : str) : str :=
  match v with Some s => s | None => default end.

(** [TRIAL_ACCOUNT = os.getenv("TRIAL_ACCOUNT", "true").lower()
                      in ("1", "true", "yes")] *)
Definition TRIAL_ACCOUNT_of_env (v : option str) : bool :=
  if in_dec str_eq_dec (lower (getenv v (lit "true")))
       [lit "1"; lit "true"; lit "yes"]
  then true else false.

(** ** A state-and-exception monad for the evaluator's loops *)

Record eval_state := {
  alert_needed : bool;
  reasons : list str
}.

(** A computation returns its result, or [None] when it raised, and the
    state as it left it. *)
Definition M (A : Type) : Type := eval_state -> option A * eval_state.

Definition ret {A} (a : A) : M A := fun st => (Some a, st).

Definition bind {A B} (m : M A) (k : A -> M B) : M B :=
  fun st =>
    match m st with
    | (Some a, st') => k a st'
    | (None, st') => (None, st')
    end.

Notation "x <- m ;; k" := (bind m (fun x => k))
  (at level 61, m at next level, right associativity).
Notation "m ;;; k" := (bind m (fun _ => k))
  (at level 61, right associativity).

(** [reasons.append(r)] *)
Definition append_reason (r : str) : M unit :=
  fun st => (Some tt, {| alert_needed := alert_needed st;
                         reasons := reasons st ++ [r] |}).

(** [alert_needed = True] *)
Definition set_alert_needed : M unit :=
  fun st => (Some tt, {| alert_needed := true; reasons := reasons st |}).

(** [if b: m] *)
Definition when (b : bool) (m : M unit) : M unit :=
  if b then m else ret tt.

(** [try: m / except Exception: continue] as the body of a loop: whether
    [m] completes or raises, the loop goes on from the state [m] left. *)
Definition try_continue (m : M unit) (st : eval_state) : eval_state :=
  snd (m st).

(** [for x in items: try: body(x) / except Exception: continue] *)
Definition for_each {A} (items : list A) (body : A -> M unit)
    (st : eval_state) : eval_state :=
  fold_left (fun st x => try_continue (body x) st) items st.

(** A sample is the pair of its ISO timestamp string and its value. *)
Definition sample_of (pyobj : Type) : Type := (str * pyobj)%type.

Section Core.

Context {pyobj : Type} {B : Builtins pyobj}.

#[local] Abbreviation sample := (sample_of pyobj).

(** [float(v)] inside the monad. *)
Definition float_ (v : pyobj) : M spec_float := fun st => (py_float v, st).

(** ** Threshold evaluator *)

Definition low_hr_reason (cfg : Config) (ts : str) (hr_val : pyobj) : str :=
  lit "Low HR " ++ py_format hr_val ++ lit " bpm at " ++ ts ++ lit " ("
    ++ [LESS_EQUAL] ++ lit " " ++ py_format_float (HR_LOW_THRESHOLD cfg)
    ++ lit ")".

Definition high_hr_reason (high : spec_float) (ts : str) (hr_val : pyobj) : str :=
  lit "High HR " ++ py_format hr_val ++ lit " bpm at " ++ ts ++ lit " ("
    ++ [GREATER_EQUAL] ++ lit " " ++ py_format_float high ++ lit ")".

Definition low_spo2_reason (cfg : Config) (ts : str) (sp_val : pyobj) : str :=
  lit "Low SpO" ++ [SUBSCRIPT_TWO] ++ lit " " ++ py_format sp_val
    ++ lit "% at " ++ ts ++ lit " (" ++ [LESS_EQUAL] ++ lit " "
    ++ py_format_float (SPO2_LOW_THRESHOLD cfg) ++ lit ")".

(** Body of the first loop. *)
Definition low_hr_body (cfg : Config) (s : sample) : M unit :=
  let '(ts, hr_val) := s in
  x <- float_ hr_val ;;
  when (SFleb x (HR_LOW_THRESHOLD cfg))
    (append_reason (low_hr_reason cfg ts hr_val) ;;; set_alert_needed).

(** Body of the second loop; [x >= high] is [high <= x]. *)
Definition high_hr_body (high : spec_float) (s : sample) : M unit :=
  let '(ts, hr_val) := s in
  x <- float_ hr_val ;;
  when (SFleb high x)
    (append_reason (high_hr_reason high ts hr_val) ;;; set_alert_needed).

(** Body of the third loop. *)
Definition low_spo2_body (cfg : Config) (s : sample) : M unit :=
  let '(ts, sp_val) := s in
  x <- float_ sp_val ;;
  when (SFleb x (SPO2_LOW_THRESHOLD cfg))
    (append_reason (low_spo2_reason cfg ts sp_val) ;;; set_alert_needed).

(** [data[-1][1] if data else "N/A"] *)
Definition latest (data : list sample) : pyobj :=
  last (map snd data) (py_of_str (lit "N/A")).

Definition evaluate_alerts (cfg : Config) (heart_data spo2_data : list sample)
    : bool * list str * pyobj * pyobj :=
  let st := {| alert_needed := false; reasons := [] |} in
  let latest_hr := latest heart_data in
  let latest_spo2 := latest spo2_data in
  let st := for_each heart_data (low_hr_body cfg) st in
  let st :=
    match HR_HIGH_THRESHOLD cfg with
    | Some high => for_each heart_data (high_hr_body high) st
    | None => st
    end in
  let st := for_each spo2_data (low_spo2_body cfg) st in
  (alert_needed st, reasons st, latest_hr, latest_spo2).

(** The four components of the evaluator's result. *)
Definition needs_alert (r : bool * list str * pyobj * pyobj) : bool :=
  fst (fst (fst r)).
Definition reasons_of (r : bool * list str * pyobj * pyobj) : list str :=
  snd (fst (fst r)).
Definition latest_heart_rate (r : bool * list str * pyobj * pyobj) : pyobj :=
  snd (fst r).
Definition latest_oxygen (r : bool * list str * pyobj * pyobj) : pyobj :=
  snd r.

(** ** The evaluator as the design document words it

    A value is at or below (at or above) a bound when it is numeric and
    compares so; each pass lists the reasons of the samples it flags, in
    the order of the series. *)

Definition at_or_below (bound : spec_float) (v : pyobj) : bool :=
  match py_float v with
  | Some x => SFleb x bound
  | None => false
  end.

Definition at_or_above (bound : spec_float) (v : pyobj) : bool :=
  match py_float v with
  | Some x => SFleb bound x
  | None => false
  end.

Definition low_hr_pass (cfg : Config) (heart_data : list sample) : list str :=
  map (fun s => low_hr_reason cfg (fst s) (snd s))
      (filter (fun s => at_or_below (HR_LOW_THRESHOLD cfg) (snd s)) heart_data).

Definition high_hr_pass (cfg : Config) (heart_data : list sample) : list str :=
  match HR_HIGH_THRESHOLD cfg with
  | Some high =>
      map (fun s => high_hr_reason high (fst s) (snd s))
          (filter (fun s => at_or_above high (snd s)) heart_data)
  | None => []
  end.

Definition low_spo2_pass (cfg : Config) (spo2_data : list sample) : list str :=
  map (fun s => low_spo2_reason cfg (fst s) (snd s))
      (filter (fun s => at_or_below (SPO2_LOW_THRESHOLD cfg) (snd s)) spo2_data).

(** The flag the evaluator returns, pass by pass. *)
Definition flagged (cfg : Config) (heart_data spo2_data : list sample) : bool :=
  existsb (fun s => at_or_below (HR_LOW_THRESHOLD cfg) (snd s)) heart_data
  || match HR_HIGH_THRESHOLD cfg with
     | Some high => existsb (fun s => at_or_above high (snd s)) heart_data
     | None => false
     end
  || existsb (fun s => at_or_below (SPO2_LOW_THRESHOLD cfg) (snd s)) spo2_data.

(** A string mentions another when it contains it. *)
Definition mentions (r t : str) : Prop := exists pre post, r = pre ++ t ++ post.

(** ** Series merger *)

(** [[t for t, _ in data]] *)
Definition timestamps (data : list sample) : list str := map fst data.

(** [next((v for ts, v in data if ts == t), default)] *)
Fixpoint next_value (data : list sample) (t : str) (default : pyobj) : pyobj :=
  match data with
  | [] => default
  | (ts, v) :: rest =>
      if str_eq_dec ts t then v else next_value rest t default
  end.

End Core.

(** [set(l)]: the distinct elements of [l].  Python fixes no iteration
    order for a set; the program only ever sorts it. *)
Definition py_set (l : list str) : list str := nodup str_eq_dec l.

(** [sorted(l)] for strings: a stable sort by [<]. *)
Fixpoint insert_sorted (x : str) (l : list str) : list str :=
  match l with
  | [] => [x]
  | y :: l' => if str_ltb y x then y :: insert_sorted x l' else x :: l
  end.

Definition py_sorted (l : list str) : list str :=
  fold_right insert_sorted [] l.

Section Merger.

Context {pyobj : Type} {B : Builtins pyobj}.

#[local] Abbreviation sample := (sample_of pyobj).

(** [sorted(set([t for t, _ in heart_data] + [t for t, _ in spo2_data]))] *)
Definition all_times (heart_data spo2_data : list sample) : list str :=
  py_sorted (py_set (timestamps heart_data ++ timestamps spo2_data)).

(** The header row of the export. *)
Definition csv_header : list str :=
  [lit "Timestamp (IST)"; lit "Heart Rate (bpm)";
   lit "SpO" ++ [SUBSCRIPT_TWO] ++ lit " (%)"].

(** The rows [[t, hr, sp]] handed to [writer.writerow] after the header,
    in the order they are written. *)
Definition merged_rows (heart_data spo2_data : list sample)
    : list (str * pyobj * pyobj) :=
  map (fun t =>
         let hr := next_value heart_data t (py_of_str empty_str) in
         let sp := next_value spo2_data t (py_of_str empty_str) in
         (t, hr, sp))
      (all_times heart_data spo2_data).

(** The timestamp of a row. *)
Definition row_time (row : str * pyobj * pyobj) : str := fst (fst row).

(** What [save_to_csv] writes: the header, then the rows. *)
Definition save_to_csv (heart_data spo2_data : list sample)
    : list str * list (str * pyobj * pyobj) :=
  (csv_header, merged_rows heart_data spo2_data).

End Merger.

(** ** Alert composer *)

Definition NEWLINE : char := 10%N.

Section Composer.

Context {pyobj : Type} {B : Builtins pyobj}.

(** [base = f"HR:{latest_hr}bpm SpO2:{latest_spo2}% Time:{timestamp} "],
    with the subscript two of the source. *)
Definition compact_base (latest_hr latest_spo2 : pyobj) (timestamp : str) : str :=
  lit "HR:" ++ py_format latest_hr ++ lit "bpm SpO" ++ [SUBSCRIPT_TWO]
    ++ lit ":" ++ py_format latest_spo2 ++ lit "% Time:" ++ timestamp
    ++ lit " ".

(** [links = f"H:{hospitals_link}"] *)
Definition compact_links (hospitals_link : str) : str :=
  lit "H:" ++ hospitals_link.

(** [timestamp] and [hospitals_link] are [str] at every call. *)
Definition shorten_message (cfg : Config) (latest_hr latest_spo2 : pyobj)
    (timestamp hospitals_link : str) : str :=
  let base := compact_base latest_hr latest_spo2 timestamp in
  let links := compact_links hospitals_link in
  let message := base ++ links in
  if SMS_CHAR_LIMIT cfg <? len message then
    let excess := len message - SMS_CHAR_LIMIT cfg in
    let links :=
      if excess <? len links then slice_to links (- excess) else links in
    base ++ links
  else message.

(** The message of the full mode. *)
Definition full_message (latest_hr latest_spo2 : pyobj)
    (timestamp hospitals_link : str) : str :=
  lit "Alert" ++ [NEWLINE] ++ lit "Patient: XXXXXX" ++ [NEWLINE]
    ++ lit "Heart Rate: " ++ py_format latest_hr ++ lit "bpm" ++ [NEWLINE]
    ++ lit "SpO" ++ [SUBSCRIPT_TWO] ++ lit ": " ++ py_format latest_spo2
    ++ lit "%" ++ [NEWLINE]
    ++ lit "Time: " ++ timestamp ++ [NEWLINE]
    ++ lit "Hospitals: " ++ hospitals_link.

(** [now] is the rendering [datetime.now(IST).strftime("%H:%M:%S %d-%m")]
    of the clock at the call. *)
Definition create_alert_message (cfg : Config) (now : str)
    (latest_hr latest_spo2 : pyobj) (hospitals_link : str) : str :=
  let timestamp := now in
  if TRIAL_ACCOUNT cfg then
    shorten_message cfg latest_hr latest_spo2 timestamp hospitals_link
  else full_message latest_hr latest_spo2 timestamp hospitals_link.

(** The compact composition as the design document words it: the overflow
    is taken off the end of the link alone, down to the empty link. *)
Definition spec_shorten_message (cfg : Config) (latest_hr latest_spo2 : pyobj)
    (timestamp hospitals_link : str) : str :=
  let base := compact_base latest_hr latest_spo2 timestamp in
  let K := len (base ++ lit "H:" ++ hospitals_link) - SMS_CHAR_LIMIT cfg in
  if 0 <? K then
    base ++ lit "H:"
      ++ firstn (Z.to_nat (Z.max 0 (len hospitals_link - K))) hospitals_link
  else base ++ lit "H:" ++ hospitals_link.

End Composer.

(** ** Transport chunking

    [send_twilio_alert] cuts the message with the library call
    [textwrap.wrap(message, SMS_CHAR_LIMIT, break_long_words=False,
    replace_whitespace=False)].  The line-filling loop of the library
    ([TextWrapper._wrap_chunks], with the defaults [drop_whitespace=True],
    [max_lines=None] and empty indents) is embedded below; its tokenizer
    ([TextWrapper._split_chunks]: tab expansion, then a split by a regular
    expression into words and runs of whitespace) is a parameter. *)

Inductive result (A : Type) : Type :=
| Ok (a : A)
| ValueError
| OutOfFuel.
Arguments Ok {A} a.
Arguments ValueError {A}.
Arguments OutOfFuel {A}.

(** [str.isspace] on one character. *)
Definition py_isspace (c : char) : bool :=
  (((9 <=? c) && (c <=? 13)) || ((28 <=? c) && (c <=? 32))
   || (c =? 133) || (c =? 160) || (c =? 5760)
   || ((8192 <=? c) && (c <=? 8202)) || (c =? 8232) || (c =? 8233)
   || (c =? 8239) || (c =? 8287) || (c =? 12288))%N.

(** [chunk.strip() == ''] *)
Definition is_blank (chunk : str) : bool := forallb py_isspace chunk.

(** The inner [while chunks] loop: move chunks to the current line as long
    as they fit.  The library pops them from the end of the reversed
    list; here the list is kept in reading order. *)
Fixpoint take_fitting (width cur_len : Z) (chunks : list str)
    : list str * list str :=
  match chunks with
  | [] => ([], [])
  | c :: rest =>
      if cur_len + len c <=? width then
        let '(cur_line, chunks') := take_fitting width (cur_len + len c) rest in
        (c :: cur_line, chunks')
      else ([], chunks)
  end.

(** [_handle_long_word] with [break_long_words=False]: an over-long chunk
    gets a line of its own, and only when the current line is empty. *)
Definition handle_long_word (chunks cur_line : list str)
    : list str * list str :=
  match cur_line, chunks with
  | [], c :: rest => ([c], rest)
  | _, _ => (cur_line, chunks)
  end.

(** [if self.drop_whitespace and chunks[-1].strip() == '' and lines:
        del chunks[-1]] *)
Definition drop_leading_blank (have_lines : bool) (chunks : list str) : list str :=
  match chunks with
  | c :: rest => if is_blank c && have_lines then rest else chunks
  | [] => chunks
  end.

(** [if chunks and len(chunks[-1]) > width: self._handle_long_word(...)] *)
Definition place_long_word (width : Z) (cur_line chunks : list str)
    : list str * list str :=
  match chunks with
  | c :: _ =>
      if width <? len c then handle_long_word chunks cur_line
      else (cur_line, chunks)
  | [] => (cur_line, chunks)
  end.

(** [if self.drop_whitespace and cur_line and cur_line[-1].strip() == '':
        del cur_line[-1]] *)
Definition drop_trailing_blank (cur_line : list str) : list str :=
  match cur_line with
  | [] => cur_line
  | _ :: _ =>
      if is_blank (last cur_line []) then removelast cur_line else cur_line
  end.

(** One turn of the outer loop: the line it appends, if any, and the
    chunks left.  [have_lines] is the truth value of [lines]. *)
Definition wrap_line_step (width : Z) (have_lines : bool) (chunks : list str)
    : option str * list str :=
  let chunks := drop_leading_blank have_lines chunks in
  let '(cur_line, chunks) := take_fitting width 0 chunks in
  let '(cur_line, chunks) := place_long_word width cur_line chunks in
  let cur_line := drop_trailing_blank cur_line in
  match cur_line with
  | [] => (None, chunks)
  | _ :: _ => (Some (List.concat cur_line), chunks)
  end.

Definition nonempty {A} (l : list A) : bool :=
  match l with [] => false | _ :: _ => true end.

(** The outer [while chunks] loop, bounded by [fuel] turns. *)
Fixpoint wrap_loop (fuel : nat) (width : Z) (lines chunks : list str)
    : result (list str) :=
  match chunks with
  | [] => Ok lines
  | _ :: _ =>
      match fuel with
      | O => OutOfFuel
      | S fuel' =>
          let '(line, chunks') := wrap_line_step width (nonempty lines) chunks in
          let lines' :=
            match line with Some l => lines ++ [l] | None => lines end in
          wrap_loop fuel' width lines' chunks'
      end
  end.

(** [_wrap_chunks]; each turn of the loop removes a chunk, so as many turns
    as there are chunks are enough (lemma [wrap_loop_terminates]). *)
Definition wrap_chunks (width : Z) (chunks : list str) : result (list str) :=
  if width <=? 0 then ValueError
  else wrap_loop (List.length chunks) width [] chunks.

(** [enumerate(l, i)] *)
Fixpoint enumerate {A} (l : list A) (i : nat) : list (nat * A) :=
  match l with
  | [] => []
  | x :: l' => (i, x) :: enumerate l' (S i)
  end.

(** [f"Part {i}/{n}: {chunk}" if n > 1 else chunk] *)
Definition part_body (n i : nat) (chunk : str) : str :=
  if (1 <? n)%nat then
    lit "Part " ++ str_of_nat i ++ lit "/" ++ str_of_nat n ++ lit ": " ++ chunk
  else chunk.

(** What the wrapping guarantees, as a relation between the chunks of the
    text and the lines: the chunks are consumed in order; between two
    lines only blank chunks are dropped; a line is the concatenation of
    whole consecutive chunks, and it is longer than the width only when it
    is one single chunk. *)
Inductive chunked (width : Z) : list str -> list str -> Prop :=
| chunked_done (dropped : list str) :
    Forall (fun c => is_blank c = true) dropped ->
    chunked width dropped []
| chunked_line (dropped toks rest lines : list str) :
    Forall (fun c => is_blank c = true) dropped ->
    toks <> [] ->
    (len (List.concat toks) <= width \/ exists t, toks = [t]) ->
    chunked width rest lines ->
    chunked width (dropped ++ toks ++ rest) (List.concat toks :: lines).

(** The design document's bound on the parts: each body, prefix included,
    fits the limit. *)
Definition parts_within_limit (limit : Z) (calls : list (str * str)) : Prop :=
  Forall (fun call => len (snd call) <= limit) calls.

Section Transport.

(** [TextWrapper._split_chunks] *)
Variable split_chunks : str -> list str.

(** [textwrap.wrap(text, width, break_long_words=False,
                   replace_whitespace=False)] *)
Definition wrap (text : str) (width : Z) : result (list str) :=
  wrap_chunks width (split_chunks text).

(** The calls [client.messages.create(body=body, ..., to=number)] that
    [send_twilio_alert] makes, in order, as pairs [(number, body)].
    [credentials] tells whether [TWILIO_SID], [TWILIO_AUTH_TOKEN] and
    [TWILIO_PHONE] are all non-empty; the client is taken to initialise. *)
Definition send_twilio_alert (cfg : Config) (credentials : bool)
    (EMERGENCY_CONTACTS : list str) (message : str)
    : result (list (str * str)) :=
  if negb (credentials && nonempty EMERGENCY_CONTACTS) then Ok []
  else
    match wrap message (SMS_CHAR_LIMIT cfg) with
    | Ok chunks =>
        Ok (flat_map
              (fun '(i, chunk) =>
                 map (fun number =>
                        (number, part_body (List.length chunks) i chunk))
                     EMERGENCY_CONTACTS)
              (enumerate chunks 1))
    | ValueError => ValueError
    | OutOfFuel => OutOfFuel
    end.

End Transport.

(** The regular expression's whitespace class, [\t\n\x0b\x0c\r ] . *)
Definition is_wrap_space (c : char) : bool :=
  (((9 <=? c) && (c <=? 13)) || (c =? 32))%N.

(** The tokenizer on text that contains neither a tab nor a hyphen: there
    the expression only separates maximal runs of whitespace from maximal
    runs of other characters. *)
Fixpoint split_runs (cur : str) (cur_space : bool) (s : str) : list str :=
  match s with
  | [] => match cur with [] => [] | _ :: _ => [cur] end
  | c :: s' =>
      if Bool.eqb (is_wrap_space c) cur_space then
        split_runs (cur ++ [c]) cur_space s'
      else
        match cur with
        | [] => split_runs [c] (is_wrap_space c) s'
        | _ :: _ => cur :: split_runs [c] (is_wrap_space c) s'
        end
  end.

Definition split_chunks_plain (text : str) : list str :=
  split_runs [] false text.

(** ** A concrete universe of values, for running the program

    Integers (an [intVal] of the provider) and strings.  [float] converts
    an integer by rounding to binary64 and raises when it overflows; every
    string is taken to be non-numeric here. *)

Inductive test_obj : Type :=
| TInt (z : Z)
| TStr (s : str).

Definition float_of_Z (z : Z) : option spec_float :=
  match binary_normalize 53 1024 z 0 false with
  | S754_infinity _ => None
  | f => Some f
  end.

(** Floats with an integral value are rendered as Python does below
    [1e16] (digits, then [.0]); the examples use no other threshold. *)
Definition test_format_float (f : spec_float) : str :=
  match f with
  | S754_zero s => (if s then lit "-0.0" else lit "0.0")
  | S754_infinity s => (if s then lit "-inf" else lit "inf")
  | S754_nan => lit "nan"
  | S754_finite s m e =>
      let sign := if s then lit "-" else [] in
      if 0 <=? e then sign ++ str_of_Z (Z.pos m * 2 ^ e) ++ lit ".0"
      else if Z.pos m mod 2 ^ (- e) =? 0 then
        sign ++ str_of_Z (Z.pos m / 2 ^ (- e)) ++ lit ".0"
      else lit "<float>"
  end.

#[export] Instance test_builtins : Builtins test_obj := {
  py_float v := match v with TInt z => float_of_Z z | TStr _ => None end;
  py_format v := match v with TInt z => str_of_Z z | TStr s => s end;
  py_format_float := test_format_float;
  py_of_str := TStr
}.

(** The float an integer literal denotes. *)
Definition float_lit (z : Z) : spec_float := binary_normalize 53 1024 z 0 false.

(** The default configuration: the values the module takes when no
    environment variable is set. *)
Definition default_config : Config := {|
  HR_LOW_THRESHOLD := float_lit 50;
  SPO2_LOW_THRESHOLD := float_lit 90;
  HR_HIGH_THRESHOLD := None;
  TRIAL_ACCOUNT := TRIAL_ACCOUNT_of_env None;
  SMS_CHAR_LIMIT := 140
|}.

(** Configurations that differ from it by one variable. *)
Definition with_limit (cfg : Config) (limit : Z) : Config := {|
  HR_LOW_THRESHOLD := HR_LOW_THRESHOLD cfg;
  SPO2_LOW_THRESHOLD := SPO2_LOW_THRESHOLD cfg;
  HR_HIGH_THRESHOLD := HR_HIGH_THRESHOLD cfg;
  TRIAL_ACCOUNT := TRIAL_ACCOUNT cfg;
  SMS_CHAR_LIMIT := limit
|}.

Definition with_high (cfg : Config) (high : spec_float) : Config := {|
  HR_LOW_THRESHOLD := HR_LOW_THRESHOLD cfg;
  SPO2_LOW_THRESHOLD := SPO2_LOW_THRESHOLD cfg;
  HR_HIGH_THRESHOLD := Some high;
  TRIAL_ACCOUNT := TRIAL_ACCOUNT cfg;
  SMS_CHAR_LIMIT := SMS_CHAR_LIMIT cfg
|}.

Definition with_spo2_low (cfg : Config) (low : spec_float) : Config := {|
  HR_LOW_THRESHOLD := HR_LOW_THRESHOLD cfg;
  SPO2_LOW_THRESHOLD := low;
  HR_HIGH_THRESHOLD := HR_HIGH_THRESHOLD cfg;
  TRIAL_ACCOUNT := TRIAL_ACCOUNT cfg;
  SMS_CHAR_LIMIT := SMS_CHAR_LIMIT cfg
|}.

(** The series of the design document's end-to-end examples. *)
Definition example_heart : list (sample_of test_obj) :=
  [(lit "2024-01-01T10:00:00+05:30", TInt 48);
   (lit "2024-01-01T10:05:00+05:30", TInt 72)].

Definition example_spo2 : list (sample_of test_obj) :=
  [(lit "2024-01-01T10:00:00+05:30", TInt 91)].

(** The link [main] passes by default, and a clock reading. *)
Definition default_link : str := lit "https://maps.google.com/?q=hospitals+near+me".
Definition example_now : str := lit "10:07:31 01-01".

(** ** Contact list

    [EMERGENCY_CONTACTS = [c.strip() for c in
       os.getenv("EMERGENCY_CONTACTS", "+91XXXXXXXXXX,+91XXXXXXXXXX").split(",")
       if c.strip()]] *)

Definition COMMA : char := 44%N.

(** [s.split(sep)] for a separator of one character: the fields between
    the separators, at least one. *)
Fixpoint split_on (sep : char) (s : str) : list str :=
  match s with
  | [] => [[]]
  | c :: s' =>
      if (c =? sep)%N then [] :: split_on sep s'
      else
        match split_on sep s' with
        | field :: fields => (c :: field) :: fields
        | [] => [[c]]
        end
  end.

(** [sep.join(l)] *)
Fixpoint join (sep : str) (l : list str) : str :=
  match l with
  | [] => []
  | [x] => x
  | x :: l' => x ++ sep ++ join sep l'
  end.

(** [s.lstrip()], [s.rstrip()] and [s.strip()]. *)
Fixpoint lstrip (s : str) : str :=
  match s with
  | [] => []
  | c :: s' => if py_isspace c then lstrip s' else s
  end.

Definition rstrip (s : str) : str := List.rev (lstrip (List.rev s)).

Definition strip (s : str) : str := rstrip (lstrip s).

Definition DEFAULT_CONTACTS : str := lit "+91XXXXXXXXXX,+91XXXXXXXXXX".

Definition EMERGENCY_CONTACTS_of_env (v : option str) : list str :=
  map strip
      (filter (fun c => nonempty (strip c))
              (split_on COMMA (getenv v DEFAULT_CONTACTS))).

(** ** Document store *)

(** A document holds one of the two vital signs, under the key
    [heart_rate] or [spo2]. *)
Inductive vital : Type := HeartRate | SpO2.

Record document := {
  doc_id : str;
  doc_userId : str;
  doc_timestamp : str;
  doc_vital : vital;
  doc_value : spec_float;
  doc_ingested_at : str
}.

(** The documents built so far, and how many times [uuid.uuid4()] and
    [datetime.now(UTC)] have been called. *)
Record build_state := {
  docs : list document;
  uuid_calls : nat;
  now_calls : nat
}.

(** What [save_to_cosmos] did with a container: each document it tried
    to insert with the success of [create_item], and the count its last
    message prints. *)
Record cosmos_report := {
  attempts : list (document * bool);
  reported : nat
}.

Section Cosmos.

Context {pyobj : Type} {B : Builtins pyobj}.

#[local] Abbreviation sample := (sample_of pyobj).

(** [datetime.fromisoformat(t).astimezone(UTC).isoformat()]; [None] when
    it raises. *)
Variable utc_iso : str -> option str.

(** [str(uuid.uuid4())] and [datetime.now(UTC).isoformat()] at their
    n-th call. *)
Variable uuid4 : nat -> str.
Variable utc_now : nat -> str.

(** One turn of a document-building loop.  The fields of the dictionary
    are evaluated in the order they are written: the id, the timestamp,
    the value, the ingestion time; an exception in one of them abandons
    the document ([except Exception: continue]). *)
Definition add_doc (user_id : str) (kind : vital) (st : build_state)
    (s : sample) : build_state :=
  let '(t, v) := s in
  let id := uuid4 (uuid_calls st) in
  match utc_iso t with
  | None => {| docs := docs st; uuid_calls := S (uuid_calls st);
               now_calls := now_calls st |}
  | Some ts =>
      match py_float v with
      | None => {| docs := docs st; uuid_calls := S (uuid_calls st);
                   now_calls := now_calls st |}
      | Some x =>
          {| docs := docs st ++
                     [{| doc_id := id; doc_userId := user_id;
                         doc_timestamp := ts; doc_vital := kind;
                         doc_value := x;
                         doc_ingested_at := utc_now (now_calls st) |}];
             uuid_calls := S (uuid_calls st);
             now_calls := S (now_calls st) |}
      end
  end.

(** The two loops that fill [docs]. *)
Definition build_docs (heart_data spo2_data : list sample) (user_id : str)
    : build_state :=
  let st := {| docs := []; uuid_calls := 0; now_calls := 0 |} in
  let st := fold_left (add_doc user_id HeartRate) heart_data st in
  fold_left (add_doc user_id SpO2) spo2_data st.

(** [container] is what [get_cosmos_collection] returned: [None], or a
    container whose [create_item] succeeds ([true]) or raises ([false]).
    The result is [None] when the function returns at once. *)
Definition save_to_cosmos (container : option (document -> bool))
    (heart_data spo2_data : list sample) (user_id : str)
    : option cosmos_report :=
  match container with
  | None => None
  | Some create_item =>
      let ds := docs (build_docs heart_data spo2_data user_id) in
      Some {| attempts := map (fun doc => (doc, create_item doc)) ds;
              reported := List.length ds |}
  end.

(** The content of a document, apart from its id and ingestion time. *)
Definition doc_content (d : document) : str * vital * spec_float :=
  (doc_timestamp d, doc_vital d, doc_value d).

(** The content of the document a sample yields, if it yields one. *)
Definition sample_content (kind : vital) (s : sample)
    : list (str * vital * spec_float) :=
  match utc_iso (fst s), py_float (snd s) with
  | Some ts, Some x => [(ts, kind, x)]
  | _, _ => []
  end.

End Cosmos.

(** ** Fetching a series *)

(** A data source of the listing, with the two fields the search reads:
    [ds.get("dataStreamId")] and [ds.get("dataType", {}).get("name")],
    each a string or absent. *)
Record data_source := {
  dataStreamId : option str;
  dataType_name : option str
}.

(** [a in b] for strings. *)
Fixpoint is_prefix (a b : str) : bool :=
  match a, b with
  | [], _ => true
  | _ :: _, [] => false
  | x :: a', y :: b' => (x =? y)%N && is_prefix a' b'
  end.

Fixpoint is_infix (a b : str) : bool :=
  is_prefix a b
  || match b with
     | [] => false
     | _ :: b' => is_infix a b'
     end.

(** A point of the dataset: [point.get("startTimeNanos")] if present, and
    [point.get("value", [])], a list of dictionaries.  A dictionary is the
    list of its keys with their values; [None] is JSON's null. *)
Record point (pyobj : Type) := {
  startTimeNanos : option pyobj;
  point_value : list (list (str * option pyobj))
}.
Arguments startTimeNanos {pyobj} p.
Arguments point_value {pyobj} p.

(** The outcome of a call that may raise. *)
Inductive outcome (A : Type) : Type :=
| Returned (a : A)
| Raised.
Arguments Returned {A} a.
Arguments Raised {A}.

(** [key in d] and [d.get(key)]. *)
Fixpoint dict_lookup {V} (d : list (str * V)) (key : str) : option V :=
  match d with
  | [] => None
  | (k, v) :: d' => if str_eq_dec k key then Some v else dict_lookup d' key
  end.

Section GetDataset.

Context {pyobj : Type}.

(** [str.lower]. *)
Variable py_lower : str -> str.

(** The timestamp of a point: [int(point.get("startTimeNanos", 0)) / 1e9]
    turned into a time, moved to IST and rendered by [isoformat];
    [None] when one of these raises. *)
Variable ist_iso : option pyobj -> option str.

Definition source_matches (data_type_keyword : str) (ds : data_source) : bool :=
  let ds_id := py_lower (getenv (dataStreamId ds) empty_str) in
  let dt_name := py_lower (getenv (dataType_name ds) empty_str) in
  is_infix (py_lower data_type_keyword) ds_id
  || is_infix (py_lower data_type_keyword) dt_name.

(** The search loop: [None] when no source matches, else the
    [ds.get("dataStreamId")] of the first that does. *)
Fixpoint find_source (data_type_keyword : str) (sources : list data_source)
    : option (option str) :=
  match sources with
  | [] => None
  | ds :: rest =>
      if source_matches data_type_keyword ds then Some (dataStreamId ds)
      else find_source data_type_keyword rest
  end.

(** [v[0].get("fpVal") if "fpVal" in v[0] else v[0].get("intVal")], or
    [None] when [v] is empty. *)
Definition point_val (p : point pyobj) : option pyobj :=
  match point_value p with
  | [] => None
  | entry :: _ =>
      match dict_lookup entry (lit "fpVal") with
      | Some val => val
      | None =>
          match dict_lookup entry (lit "intVal") with
          | Some val => val
          | None => None
          end
      end
  end.

(** The loop over the points. *)
Fixpoint collect_points (points : list (point pyobj))
    : outcome (list (sample_of pyobj)) :=
  match points with
  | [] => Returned []
  | p :: rest =>
      match ist_iso (startTimeNanos p) with
      | None => Raised
      | Some ist_time =>
          match collect_points rest with
          | Raised => Raised
          | Returned samples =>
              match point_val p with
              | Some val => Returned ((ist_time, val) :: samples)
              | None => Returned samples
              end
          end
      end
  end.

(** [listing] is the answer to the request for the data sources and
    [fetch] the answer to the request for a dataset, [None] when the
    request raises. *)
Definition get_dataset (listing : option (list data_source))
    (fetch : str -> option (list (point pyobj))) (data_type_keyword : str)
    : outcome (list (sample_of pyobj)) :=
  match listing with
  | None => Returned []
  | Some sources =>
      match find_source data_type_keyword sources with
      | Some (Some target_source) =>
          if nonempty target_source then
            match fetch target_source with
            | None => Returned []
            | Some points => collect_points points
            end
          else Returned []
      | _ => Returned []
      end
  end.

End GetDataset.

(** ** The run *)

(** What a run leaves behind: the export, the report of the document
    store, the reasons it prints and, when an alert is needed, the outcome
    of [send_twilio_alert]. *)
Record run_effects (pyobj : Type) := {
  csv_written : list str * list (str * pyobj * pyobj);
  cosmos_saved : option cosmos_report;
  alert_debug : list str;
  sms_sent : option (result (list (str * str)))
}.
Arguments csv_written {pyobj} r.
Arguments cosmos_saved {pyobj} r.
Arguments alert_debug {pyobj} r.
Arguments sms_sent {pyobj} r.

Section Main.

Context {pyobj : Type} {B : Builtins pyobj}.

Variable py_lower : str -> str.
Variable ist_iso : option pyobj -> option str.
Variable utc_iso : str -> option str.
Variable uuid4 : nat -> str.
Variable utc_now : nat -> str.
Variable split_chunks : str -> list str.

(** [main], from the two series on. *)
Definition main_with (cfg : Config) (container : option (document -> bool))
    (credentials : bool) (EMERGENCY_CONTACTS : list str) (now hospitals_link : str)
    (heart_data spo2_data : list (sample_of pyobj)) : run_effects pyobj :=
  let csv := save_to_csv heart_data spo2_data in
  let cosmos :=
    save_to_cosmos utc_iso uuid4 utc_now container heart_data spo2_data
      (lit "user123") in
  let '(alert_needed, reasons, latest_hr, latest_spo2) :=
    evaluate_alerts cfg heart_data spo2_data in
  if alert_needed then
    let alert_message :=
      create_alert_message cfg now latest_hr latest_spo2 hospitals_link in
    {| csv_written := csv; cosmos_saved := cosmos; alert_debug := reasons;
       sms_sent := Some (send_twilio_alert split_chunks cfg credentials
                           EMERGENCY_CONTACTS alert_message) |}
  else
    {| csv_written := csv; cosmos_saved := cosmos; alert_debug := [];
       sms_sent := None |}.

(** [main], with the credentials and the service obtained: the two
    fetches, then the rest.  An exception of a fetch ends the run before
    any effect; an exception of the SMS step, the last step, is the
    outcome recorded in [sms_sent]. *)
Definition main (cfg : Config)
    (heart_listing spo2_listing : option (list data_source))
    (heart_fetch spo2_fetch : str -> option (list (point pyobj)))
    (container : option (document -> bool))
    (credentials : bool) (EMERGENCY_CONTACTS : list str) (now hospitals_link : str)
    : outcome (run_effects pyobj) :=
  match get_dataset py_lower ist_iso heart_listing heart_fetch (lit "heart_rate") with
  | Raised => Raised
  | Returned heart_data =>
      match get_dataset py_lower ist_iso spo2_listing spo2_fetch
              (lit "oxygen_saturation") with
      | Raised => Raised
      | Returned spo2_data =>
          Returned (main_with cfg container credentials EMERGENCY_CONTACTS
                      now hospitals_link heart_data spo2_data)
      end
  end.

End Main.

(** ** Stand-ins for running the rest of the program *)

(** A universe of floats (an [fpVal] of the provider) and strings, every
    string taken to be non-numeric. *)
Inductive float_obj : Type :=
| FVal (f : spec_float)
| FText (s : str).

#[export] Instance float_builtins : Builtins float_obj := {
  py_float v := match v with FVal f => Some f | FText _ => None end;
  py_format v := match v with FVal f => test_format_float f | FText s => s end;
  py_format_float := test_format_float;
  py_of_str := FText
}.

(** An id generator that never repeats, a clock, and conversions of
    timestamps that accept the strings starting with [2024] and the
    integers. *)
Definition test_uuid4 (n : nat) : str := [N.of_nat n].

Definition test_utc_now (n : nat) : str := lit "2024-01-01T04:40:00+00:00".

Definition test_utc_iso (t : str) : option str :=
  if is_prefix (lit "2024") t then Some t else None.

Definition test_ist_iso (nanos : option test_obj) : option str :=
  match nanos with
  | None => Some (lit "1970-01-01T05:30:00+05:30")
  | Some (TInt z) => Some (str_of_Z z)
  | Some (TStr _) => None
  end.

(** A configuration whose three bounds are NaN. *)
Definition nan_config : Config := {|
  HR_LOW_THRESHOLD := S754_nan;
  SPO2_LOW_THRESHOLD := S754_nan;
  HR_HIGH_THRESHOLD := Some S754_nan;
  TRIAL_ACCOUNT := true;
  SMS_CHAR_LIMIT := 140
|}.

(* ================================================================== *)
(** * Part II: properties *)
(* ================================================================== *)

(** ** Comparison of floats *)

Lemma SFcompare_antisym (a b : spec_float) :
  SFcompare b a = option_map CompOpp (SFcompare a b).
Proof.
  destruct a as [sa | sa | | sa ma ea], b as [sb | sb | | sb mb eb];
    simpl; try reflexivity;
    try (destruct sa; reflexivity); try (destruct sb; reflexivity);
    try (destruct sa, sb; reflexivity).
  destruct sa, sb; try reflexivity;
    rewrite (Z.compare_antisym ea eb);
    destruct (ea ?= eb); simpl; try reflexivity;
    change (Pos.compare_cont Eq mb ma) with (Pos.compare mb ma);
    change (Pos.compare_cont Eq ma mb) with (Pos.compare ma mb);
    rewrite (Pos.compare_antisym ma mb); reflexivity.
Qed.

Lemma SFltb_not_SFleb (a b : spec_float) :
  SFltb a b = true -> SFleb b a = false.
Proof.
  unfold SFltb, SFleb. rewrite (SFcompare_antisym a b).
  destruct (SFcompare a b) as [[ | | ] | ]; simpl; congruence.
Qed.

(** ** The evaluator's loops *)

Lemma for_each_app {A} (l1 l2 : list A) (body : A -> M unit) (st : eval_state) :
  for_each (l1 ++ l2) body st = for_each l2 body (for_each l1 body st).
Proof. unfold for_each. apply fold_left_app. Qed.

(** A loop whose body either leaves the state alone or appends one reason
    and raises the flag. *)
Lemma for_each_flagging {A} (body : A -> M unit) (p : A -> bool) (r : A -> str) :
  (forall x st,
      try_continue (body x) st =
      if p x then {| alert_needed := true; reasons := reasons st ++ [r x] |}
      else st) ->
  forall l st,
    for_each l body st =
    {| alert_needed := alert_needed st || existsb p l;
       reasons := reasons st ++ map r (filter p l) |}.
Proof.
  intros Hbody l. induction l as [ | x l IH]; intros st.
  - simpl. rewrite orb_false_r, app_nil_r. destruct st; reflexivity.
  - change (for_each (x :: l) body st)
      with (for_each l body (try_continue (body x) st)).
    rewrite IH, Hbody. simpl. destruct (p x); simpl.
    + rewrite orb_true_r, <- app_assoc. reflexivity.
    + reflexivity.
Qed.

Section EvaluatorFacts.

Context {pyobj : Type} {B : Builtins pyobj}.

#[local] Abbreviation sample := (sample_of pyobj).

Lemma low_hr_body_step (cfg : Config) (s : sample) (st : eval_state) :
  try_continue (low_hr_body cfg s) st =
  if at_or_below (HR_LOW_THRESHOLD cfg) (snd s)
  then {| alert_needed := true;
          reasons := reasons st ++ [low_hr_reason cfg (fst s) (snd s)] |}
  else st.
Proof.
  destruct s as [ts v]. unfold try_continue, low_hr_body, at_or_below, bind, float_.
  simpl. destruct (py_float v) as [x | ]; [ | reflexivity].
  destruct (SFleb x (HR_LOW_THRESHOLD cfg)); reflexivity.
Qed.

Lemma high_hr_body_step (high : spec_float) (s : sample) (st : eval_state) :
  try_continue (high_hr_body high s) st =
  if at_or_above high (snd s)
  then {| alert_needed := true;
          reasons := reasons st ++ [high_hr_reason high (fst s) (snd s)] |}
  else st.
Proof.
  destruct s as [ts v]. unfold try_continue, high_hr_body, at_or_above, bind, float_.
  simpl. destruct (py_float v) as [x | ]; [ | reflexivity].
  destruct (SFleb high x); reflexivity.
Qed.

Lemma low_spo2_body_step (cfg : Config) (s : sample) (st : eval_state) :
  try_continue (low_spo2_body cfg s) st =
  if at_or_below (SPO2_LOW_THRESHOLD cfg) (snd s)
  then {| alert_needed := true;
          reasons := reasons st ++ [low_spo2_reason cfg (fst s) (snd s)] |}
  else st.
Proof.
  destruct s as [ts v]. unfold try_continue, low_spo2_body, at_or_below, bind, float_.
  simpl. destruct (py_float v) as [x | ]; [ | reflexivity].
  destruct (SFleb x (SPO2_LOW_THRESHOLD cfg)); reflexivity.
Qed.

Lemma evaluate_alerts_unfold (cfg : Config) (heart_data spo2_data : list sample) :
  evaluate_alerts cfg heart_data spo2_data =
  (flagged cfg heart_data spo2_data,
   low_hr_pass cfg heart_data ++ high_hr_pass cfg heart_data
     ++ low_spo2_pass cfg spo2_data,
   latest heart_data, latest spo2_data).
Proof.
  unfold evaluate_alerts, flagged, low_hr_pass, high_hr_pass, low_spo2_pass.
  rewrite (for_each_flagging _ _ _ (low_hr_body_step cfg)).
  destruct (HR_HIGH_THRESHOLD cfg) as [high | ].
  - rewrite (for_each_flagging _ _ _ (high_hr_body_step high)).
    rewrite (for_each_flagging _ _ _ (low_spo2_body_step cfg)).
    simpl. rewrite <- app_assoc. reflexivity.
  - rewrite (for_each_flagging _ _ _ (low_spo2_body_step cfg)).
    simpl. rewrite orb_false_r. reflexivity.
Qed.


Lemma existsb_flags {A} (p : A -> bool) (r : A -> str) (l : list A) :
  existsb p l = true <-> map r (filter p l) <> [].
Proof.
  induction l as [ | x l IH]; simpl.
  - split; [discriminate | congruence].
  - destruct (p x) eqn:Hp; simpl.
    + split; [discriminate | reflexivity].
    + exact IH.
Qed.

Lemma app_neq_nil {A} (l1 l2 : list A) :
  l1 ++ l2 <> [] <-> l1 <> [] \/ l2 <> [].
Proof.
  destruct l1 as [ | x l1]; simpl.
  - split; [auto | intros [H | H]; [congruence | exact H]].
  - split; [left | ]; discriminate.
Qed.

Lemma flagged_iff (cfg : Config) (heart_data spo2_data : list sample) :
  flagged cfg heart_data spo2_data = true <->
  low_hr_pass cfg heart_data ++ high_hr_pass cfg heart_data
    ++ low_spo2_pass cfg spo2_data <> [].
Proof.
  unfold flagged, low_hr_pass, high_hr_pass, low_spo2_pass.
  rewrite !orb_true_iff, !app_neq_nil.
  rewrite (existsb_flags _ (fun s => low_hr_reason cfg (fst s) (snd s))).
  rewrite (existsb_flags _ (fun s => low_spo2_reason cfg (fst s) (snd s))).
  destruct (HR_HIGH_THRESHOLD cfg) as [high | ].
  - rewrite (existsb_flags _ (fun s => high_hr_reason high (fst s) (snd s))).
    tauto.
  - split; [ intros [[H | H] | H]; auto; discriminate
           | intros [H | [H | H]]; auto; congruence ].
Qed.

Lemma filter_remove_unflagged {A} (p : A -> bool) (x : A) (l1 l2 : list A) :
  p x = false -> filter p (l1 ++ x :: l2) = filter p (l1 ++ l2).
Proof.
  intros Hp. rewrite !filter_app. simpl. rewrite Hp. reflexivity.
Qed.

Lemma existsb_remove_unflagged {A} (p : A -> bool) (x : A) (l1 l2 : list A) :
  p x = false -> existsb p (l1 ++ x :: l2) = existsb p (l1 ++ l2).
Proof.
  intros Hp. rewrite !existsb_app. simpl. rewrite Hp. reflexivity.
Qed.

(** A heart-rate sample that neither pass flags can be taken out of the
    series without changing the flag or the reasons. *)
Lemma unflagged_heart_sample (cfg : Config) (before after spo2_data : list sample)
    (s : sample) :
  at_or_below (HR_LOW_THRESHOLD cfg) (snd s) = false ->
  (forall high, HR_HIGH_THRESHOLD cfg = Some high -> at_or_above high (snd s) = false) ->
  needs_alert (evaluate_alerts cfg (before ++ s :: after) spo2_data)
    = needs_alert (evaluate_alerts cfg (before ++ after) spo2_data)
  /\ reasons_of (evaluate_alerts cfg (before ++ s :: after) spo2_data)
    = reasons_of (evaluate_alerts cfg (before ++ after) spo2_data).
Proof.
  intros Hlow Hhigh. rewrite !evaluate_alerts_unfold.
  unfold needs_alert, reasons_of, flagged, low_hr_pass, high_hr_pass. simpl.
  rewrite (filter_remove_unflagged _ s before after Hlow).
  rewrite (existsb_remove_unflagged _ s before after Hlow).
  destruct (HR_HIGH_THRESHOLD cfg) as [high | ]; [ | split; reflexivity].
  rewrite (filter_remove_unflagged _ s before after (Hhigh high eq_refl)).
  rewrite (existsb_remove_unflagged _ s before after (Hhigh high eq_refl)).
  split; reflexivity.
Qed.

Lemma unflagged_spo2_sample (cfg : Config) (heart_data before after : list sample)
    (s : sample) :
  at_or_below (SPO2_LOW_THRESHOLD cfg) (snd s) = false ->
  needs_alert (evaluate_alerts cfg heart_data (before ++ s :: after))
    = needs_alert (evaluate_alerts cfg heart_data (before ++ after))
  /\ reasons_of (evaluate_alerts cfg heart_data (before ++ s :: after))
    = reasons_of (evaluate_alerts cfg heart_data (before ++ after)).
Proof.
  intros Hlow. rewrite !evaluate_alerts_unfold.
  unfold needs_alert, reasons_of, flagged, low_spo2_pass. simpl.
  rewrite (filter_remove_unflagged _ s before after Hlow).
  rewrite (existsb_remove_unflagged _ s before after Hlow).
  split; reflexivity.
Qed.

Lemma low_hr_reason_mentions (cfg : Config) (ts : str) (v : pyobj) :
  mentions (low_hr_reason cfg ts v) ts.
Proof.
  unfold mentions, low_hr_reason.
  exists (lit "Low HR " ++ py_format v ++ lit " bpm at ").
  eexists. rewrite <- !app_assoc. reflexivity.
Qed.

(** C4. Threshold triggering.  Whenever a heart-rate sample has a numeric
    value at or below the low bound, the evaluator raises [needs_alert]
    and its reasons contain one that mentions the sample's timestamp; and
    when a high bound is configured, a heart-rate sample whose numeric
    value lies strictly between the two bounds generates no reason: both
    heart-rate loops leave the state as it is on that sample, and the
    reasons are those of the series without it. *)
Theorem threshold_triggering (cfg : Config) (heart_data spo2_data : list sample) :
  (forall ts v x,
      In (ts, v) heart_data ->
      py_float v = Some x ->
      SFleb x (HR_LOW_THRESHOLD cfg) = true ->
      needs_alert (evaluate_alerts cfg heart_data spo2_data) = true
      /\ exists r, In r (reasons_of (evaluate_alerts cfg heart_data spo2_data))
                   /\ mentions r ts)
  /\
  (forall high before after ts v x,
      HR_HIGH_THRESHOLD cfg = Some high ->
      heart_data = before ++ (ts, v) :: after ->
      py_float v = Some x ->
      SFltb (HR_LOW_THRESHOLD cfg) x = true ->
      SFltb x high = true ->
      (forall st, try_continue (low_hr_body cfg (ts, v)) st = st)
      /\ (forall st, try_continue (high_hr_body high (ts, v)) st = st)
      /\ reasons_of (evaluate_alerts cfg heart_data spo2_data)
         = reasons_of (evaluate_alerts cfg (before ++ after) spo2_data)).
Proof.
  split.
  - intros ts v x Hin Hx Hle.
    assert (Hflag : at_or_below (HR_LOW_THRESHOLD cfg) (snd (ts, v)) = true)
      by (unfold at_or_below; simpl; rewrite Hx; exact Hle).
    assert (Hr : In (low_hr_reason cfg ts v) (low_hr_pass cfg heart_data)).
    { unfold low_hr_pass.
      apply (in_map (fun s => low_hr_reason cfg (fst s) (snd s)) _ (ts, v)).
      apply filter_In. split; assumption. }
    rewrite evaluate_alerts_unfold. unfold needs_alert, reasons_of. simpl.
    split.
    + apply flagged_iff. intros E. apply app_eq_nil in E as [E _].
      rewrite E in Hr. exact Hr.
    + exists (low_hr_reason cfg ts v). split.
      * apply in_or_app. left. exact Hr.
      * apply low_hr_reason_mentions.
  - intros high before after ts v x Hhigh -> Hx Hlt1 Hlt2.
    assert (Hlow : at_or_below (HR_LOW_THRESHOLD cfg) (snd (ts, v)) = false)
      by (unfold at_or_below; simpl; rewrite Hx; apply SFltb_not_SFleb; exact Hlt1).
    assert (Hup : at_or_above high (snd (ts, v)) = false)
      by (unfold at_or_above; simpl; rewrite Hx; apply SFltb_not_SFleb; exact Hlt2).
    split; [ | split].
    + intros st. rewrite low_hr_body_step, Hlow. reflexivity.
    + intros st. rewrite high_hr_body_step, Hup. reflexivity.
    + apply (unflagged_heart_sample cfg before after spo2_data (ts, v)).
      * exact Hlow.
      * intros high' E. rewrite Hhigh in E. injection E as <-. exact Hup.
Qed.

(** C6. Reason ordering.  The reasons come pass by pass: those of the
    heart-rate-low pass, then those of the heart-rate-high pass (none when
    no high bound is configured), then those of the oxygen-low pass, each
    pass in the order of its series. *)
Theorem reason_ordering (cfg : Config) (heart_data spo2_data : list sample) :
  reasons_of (evaluate_alerts cfg heart_data spo2_data)
  = low_hr_pass cfg heart_data ++ high_hr_pass cfg heart_data
      ++ low_spo2_pass cfg spo2_data.
Proof. rewrite evaluate_alerts_unfold. reflexivity. Qed.

(** C7. Alert-reasons invariant.  The returned reasons are non-empty
    exactly when the returned flag is true. *)
Theorem reasons_iff_needs_alert (cfg : Config) (heart_data spo2_data : list sample) :
  reasons_of (evaluate_alerts cfg heart_data spo2_data) <> []
  <-> needs_alert (evaluate_alerts cfg heart_data spo2_data) = true.
Proof.
  rewrite evaluate_alerts_unfold. unfold needs_alert, reasons_of. simpl.
  symmetry. apply flagged_iff.
Qed.

(** C8. Latest-value resolution.  On an empty series the latest value is
    the string N/A; on a series that ends with a sample it is that
    sample's value.  The evaluator is defined on every pair of series. *)
Theorem latest_value_resolution (cfg : Config) :
  (forall spo2_data,
      latest_heart_rate (evaluate_alerts cfg [] spo2_data) = py_of_str (lit "N/A"))
  /\ (forall heart_data ts v spo2_data,
        latest_heart_rate (evaluate_alerts cfg (heart_data ++ [(ts, v)]) spo2_data) = v)
  /\ (forall heart_data,
        latest_oxygen (evaluate_alerts cfg heart_data []) = py_of_str (lit "N/A"))
  /\ (forall heart_data spo2_data ts v,
        latest_oxygen (evaluate_alerts cfg heart_data (spo2_data ++ [(ts, v)])) = v).
Proof.
  repeat split; intros; rewrite evaluate_alerts_unfold;
    unfold latest_heart_rate, latest_oxygen, latest; simpl;
    try reflexivity; rewrite map_app; simpl; apply last_last.
Qed.

(** C9. Malformed values.  A sample whose value is not numeric leaves the
    state of each loop as it found it, and the scan goes on: the flag and
    the reasons are those of the series without the sample, whichever
    series it is in and wherever it stands. *)
Theorem malformed_values_skipped (cfg : Config) (ts : str) (v : pyobj) :
  py_float v = None ->
  (forall st, try_continue (low_hr_body cfg (ts, v)) st = st)
  /\ (forall high st, try_continue (high_hr_body high (ts, v)) st = st)
  /\ (forall st, try_continue (low_spo2_body cfg (ts, v)) st = st)
  /\ (forall before after spo2_data,
        needs_alert (evaluate_alerts cfg (before ++ (ts, v) :: after) spo2_data)
          = needs_alert (evaluate_alerts cfg (before ++ after) spo2_data)
        /\ reasons_of (evaluate_alerts cfg (before ++ (ts, v) :: after) spo2_data)
          = reasons_of (evaluate_alerts cfg (before ++ after) spo2_data))
  /\ (forall heart_data before after,
        needs_alert (evaluate_alerts cfg heart_data (before ++ (ts, v) :: after))
          = needs_alert (evaluate_alerts cfg heart_data (before ++ after))
        /\ reasons_of (evaluate_alerts cfg heart_data (before ++ (ts, v) :: after))
          = reasons_of (evaluate_alerts cfg heart_data (before ++ after))).
Proof.
  intros Hv.
  assert (Hbelow : forall bound, at_or_below bound (snd (ts, v)) = false)
    by (intros; unfold at_or_below; simpl; rewrite Hv; reflexivity).
  assert (Habove : forall bound, at_or_above bound (snd (ts, v)) = false)
    by (intros; unfold at_or_above; simpl; rewrite Hv; reflexivity).
  repeat split; intros.
  - rewrite low_hr_body_step, Hbelow. reflexivity.
  - rewrite high_hr_body_step, Habove. reflexivity.
  - rewrite low_spo2_body_step, Hbelow. reflexivity.
  - apply (unflagged_heart_sample cfg before after spo2_data (ts, v)); auto.
  - apply (unflagged_heart_sample cfg before after spo2_data (ts, v)); auto.
  - apply (unflagged_spo2_sample cfg heart_data before after (ts, v)); auto.
  - apply (unflagged_spo2_sample cfg heart_data before after (ts, v)); auto.
Qed.

End EvaluatorFacts.

(** ** Order on strings *)

Lemma str_compare_eq (a b : str) : str_compare a b = Eq <-> a = b.
Proof.
  revert b. induction a as [ | x a IH]; intros [ | y b]; simpl;
    try (split; [discriminate | congruence]); try tauto.
  destruct (N.compare_spec x y) as [-> | Hlt | Hgt].
  - rewrite IH. split; congruence.
  - split; [discriminate | ]. intros E. injection E as -> _. lia.
  - split; [discriminate | ]. intros E. injection E as -> _. lia.
Qed.

Lemma str_compare_antisym (a b : str) :
  str_compare b a = CompOpp (str_compare a b).
Proof.
  revert b. induction a as [ | x a IH]; intros [ | y b]; simpl; try reflexivity.
  rewrite (N.compare_antisym x y).
  destruct (x ?= y)%N; simpl; auto.
Qed.

Lemma str_lt_irrefl (a : str) : ~ str_lt a a.
Proof.
  unfold str_lt. intros H.
  assert (E : str_compare a a = Eq) by (apply str_compare_eq; reflexivity).
  congruence.
Qed.

Lemma str_lt_trans (a b c : str) : str_lt a b -> str_lt b c -> str_lt a c.
Proof.
  unfold str_lt. revert b c.
  induction a as [ | x a IH]; intros [ | y b] [ | z c]; simpl;
    try discriminate; try reflexivity.
  destruct (N.compare_spec x y) as [-> | Hxy | Hxy]; try discriminate.
  - destruct (N.compare_spec y z) as [-> | Hyz | Hyz]; try discriminate.
    + apply IH.
    + reflexivity.
  - destruct (N.compare_spec y z) as [-> | Hyz | Hyz]; try discriminate; intros _ _.
    + apply N.compare_lt_iff in Hxy. rewrite Hxy. reflexivity.
    + assert (H : (x < z)%N) by lia.
      apply N.compare_lt_iff in H. rewrite H. reflexivity.
Qed.

(** Two different strings are ordered one way or the other. *)
Lemma str_lt_total (a b : str) : a <> b -> str_ltb a b = false -> str_lt b a.
Proof.
  unfold str_ltb, str_lt. intros Hne Hnlt.
  rewrite (str_compare_antisym a b).
  destruct (str_compare a b) eqn:E; try discriminate.
  - apply str_compare_eq in E. contradiction.
  - reflexivity.
Qed.

Lemma str_ltb_lt (a b : str) : str_ltb a b = true <-> str_lt a b.
Proof.
  unfold str_ltb, str_lt. destruct (str_compare a b); split; congruence.
Qed.

(** ** [sorted] and [set] *)

Lemma insert_sorted_perm (x : str) (l : list str) :
  Permutation (insert_sorted x l) (x :: l).
Proof.
  induction l as [ | y l IH]; simpl.
  - apply Permutation_refl.
  - destruct (str_ltb y x).
    + apply Permutation_trans with (y :: x :: l).
      * apply perm_skip. exact IH.
      * apply perm_swap.
    + apply Permutation_refl.
Qed.

Lemma py_sorted_perm (l : list str) : Permutation (py_sorted l) l.
Proof.
  induction l as [ | x l IH]; simpl.
  - apply perm_nil.
  - apply Permutation_trans with (x :: py_sorted l).
    + apply insert_sorted_perm.
    + apply perm_skip. exact IH.
Qed.

Lemma insert_sorted_sorted (x : str) (l : list str) :
  ~ In x l ->
  StronglySorted str_lt l ->
  StronglySorted str_lt (insert_sorted x l).
Proof.
  intros Hx Hs. induction Hs as [ | y l Hs IH Hy]; simpl.
  - constructor; constructor.
  - destruct (str_ltb y x) eqn:Hyx.
    + constructor.
      * apply IH. intros Hin. apply Hx. right. exact Hin.
      * apply Forall_forall. intros z Hz.
        apply (Permutation_in _ (insert_sorted_perm x l)) in Hz.
        destruct Hz as [<- | Hz].
        -- apply str_ltb_lt. exact Hyx.
        -- rewrite Forall_forall in Hy. apply Hy. exact Hz.
    + assert (Hlt : str_lt x y).
      { apply str_lt_total; [ | exact Hyx].
        intros ->. apply Hx. left. reflexivity. }
      constructor.
      * constructor; assumption.
      * constructor; [exact Hlt | ].
        rewrite Forall_forall in Hy |- *. intros z Hz.
        apply str_lt_trans with y; [exact Hlt | apply Hy; exact Hz].
Qed.

Lemma py_sorted_sorted (l : list str) :
  NoDup l -> StronglySorted str_lt (py_sorted l).
Proof.
  induction 1 as [ | x l Hx Hnd IH]; simpl.
  - constructor.
  - apply insert_sorted_sorted; [ | exact IH].
    intros Hin. apply Hx.
    apply (Permutation_in _ (py_sorted_perm l)). exact Hin.
Qed.

Lemma all_distinct_sorted (l : list str) :
  let r := py_sorted (py_set l) in
  StronglySorted str_lt r /\ NoDup r /\ (forall t, In t r <-> In t l)
  /\ List.length r = List.length (nodup str_eq_dec l).
Proof.
  simpl. unfold py_set.
  assert (Hp := py_sorted_perm (nodup str_eq_dec l)).
  repeat split.
  - apply py_sorted_sorted. apply NoDup_nodup.
  - apply (Permutation_NoDup (Permutation_sym Hp)). apply NoDup_nodup.
  - intros Hin. apply (Permutation_in _ Hp) in Hin.
    apply nodup_In in Hin. exact Hin.
  - intros Hin. apply (Permutation_in _ (Permutation_sym Hp)).
    apply nodup_In. exact Hin.
  - apply Permutation_length. exact Hp.
Qed.

(** ** The merged view *)

Section MergerFacts.

Context {pyobj : Type} {B : Builtins pyobj}.

#[local] Abbreviation sample := (sample_of pyobj).

Lemma next_value_first (before after : list sample) (t : str) (v d : pyobj) :
  ~ In t (timestamps before) ->
  next_value (before ++ (t, v) :: after) t d = v.
Proof.
  induction before as [ | [ts w] before IH]; simpl; intros Hnot.
  - destruct (str_eq_dec t t); [reflexivity | contradiction].
  - destruct (str_eq_dec ts t) as [-> | _].
    + exfalso. apply Hnot. left. reflexivity.
    + apply IH. intros Hin. apply Hnot. right. exact Hin.
Qed.

Lemma next_value_present (data : list sample) (t : str) (d : pyobj) :
  In t (timestamps data) -> In (t, next_value data t d) data.
Proof.
  induction data as [ | [ts w] data IH]; simpl; [contradiction | ].
  intros Hin. destruct (str_eq_dec ts t) as [-> | Hne].
  - left. reflexivity.
  - right. apply IH. destruct Hin as [E | Hin]; [contradiction | exact Hin].
Qed.

Lemma next_value_absent (data : list sample) (t : str) (d : pyobj) :
  ~ In t (timestamps data) -> next_value data t d = d.
Proof.
  induction data as [ | [ts w] data IH]; simpl; [reflexivity | ].
  intros Hnot. destruct (str_eq_dec ts t) as [-> | _].
  - exfalso. apply Hnot. left. reflexivity.
  - apply IH. intros Hin. apply Hnot. right. exact Hin.
Qed.

Lemma merged_rows_times (heart_data spo2_data : list sample) :
  map row_time (merged_rows heart_data spo2_data)
  = all_times heart_data spo2_data.
Proof.
  unfold merged_rows. rewrite map_map. simpl. apply map_id.
Qed.

Lemma merged_rows_row (heart_data spo2_data : list sample) (t : str) (hr sp : pyobj) :
  In (t, hr, sp) (merged_rows heart_data spo2_data) ->
  hr = next_value heart_data t (py_of_str empty_str)
  /\ sp = next_value spo2_data t (py_of_str empty_str).
Proof.
  unfold merged_rows. intros Hin. apply in_map_iff in Hin as [t' [E _]].
  injection E as -> <- <-. split; reflexivity.
Qed.

Lemma merged_rows_length (heart_data spo2_data : list sample) :
  List.length (merged_rows heart_data spo2_data)
  = List.length (nodup str_eq_dec (timestamps heart_data ++ timestamps spo2_data)).
Proof.
  unfold merged_rows, all_times. rewrite length_map.
  apply (all_distinct_sorted (timestamps heart_data ++ timestamps spo2_data)).
Qed.

Lemma merged_rows_has_row (heart_data spo2_data : list sample) (t : str) :
  In t (timestamps heart_data) \/ In t (timestamps spo2_data) ->
  In (t, next_value heart_data t (py_of_str empty_str),
         next_value spo2_data t (py_of_str empty_str))
     (merged_rows heart_data spo2_data).
Proof.
  intros Hin. unfold merged_rows.
  apply (in_map (fun t => (t, next_value heart_data t (py_of_str empty_str),
                              next_value spo2_data t (py_of_str empty_str)))).
  unfold all_times.
  apply (all_distinct_sorted (timestamps heart_data ++ timestamps spo2_data)).
  apply in_or_app. exact Hin.
Qed.

(** C5 (amended). Series merge.  The merged view has exactly one row per
    distinct timestamp string of either series, in ascending lexicographic
    order; a row carries a value of the heart-rate series at its timestamp
    when the timestamp occurs there and the empty string otherwise, and
    likewise for oxygen.  When no timestamp is repeated inside a series:
    two series with disjoint timestamps give as many rows as both have
    samples, and two series with the same timestamps give as many rows as
    either has, each with both values. *)
Theorem series_merge (heart_data spo2_data : list sample) :
  let rows := merged_rows heart_data spo2_data in
  StronglySorted str_lt (map row_time rows)
  /\ NoDup (map row_time rows)
  /\ (forall t, In t (map row_time rows)
                <-> In t (timestamps heart_data) \/ In t (timestamps spo2_data))
  /\ (forall t hr sp,
        In (t, hr, sp) rows ->
        (In t (timestamps heart_data) -> In (t, hr) heart_data)
        /\ (~ In t (timestamps heart_data) -> hr = py_of_str empty_str)
        /\ (In t (timestamps spo2_data) -> In (t, sp) spo2_data)
        /\ (~ In t (timestamps spo2_data) -> sp = py_of_str empty_str))
  /\ (NoDup (timestamps heart_data) ->
      NoDup (timestamps spo2_data) ->
      (forall t, In t (timestamps heart_data) -> ~ In t (timestamps spo2_data)) ->
      List.length rows = (List.length heart_data + List.length spo2_data)%nat)
  /\ (NoDup (timestamps heart_data) ->
      NoDup (timestamps spo2_data) ->
      (forall t, In t (timestamps heart_data) <-> In t (timestamps spo2_data)) ->
      List.length rows = List.length heart_data
      /\ List.length rows = List.length spo2_data
      /\ forall t hr sp,
           In (t, hr, sp) rows -> In (t, hr) heart_data /\ In (t, sp) spo2_data).
Proof.
  intros rows. subst rows.
  pose proof (all_distinct_sorted (timestamps heart_data ++ timestamps spo2_data))
    as [Hsorted [Hnodup [Hin Hlen]]].
  fold (all_times heart_data spo2_data) in Hsorted, Hnodup, Hin.
  assert (Hmem : forall t, In t (map row_time (merged_rows heart_data spo2_data))
                 <-> In t (timestamps heart_data) \/ In t (timestamps spo2_data)).
  { intros t. rewrite merged_rows_times, Hin. apply in_app_iff. }
  assert (Hrow : forall t hr sp,
             In (t, hr, sp) (merged_rows heart_data spo2_data) ->
             (In t (timestamps heart_data) -> In (t, hr) heart_data)
             /\ (~ In t (timestamps heart_data) -> hr = py_of_str empty_str)
             /\ (In t (timestamps spo2_data) -> In (t, sp) spo2_data)
             /\ (~ In t (timestamps spo2_data) -> sp = py_of_str empty_str)).
  { intros t hr sp Hr. apply merged_rows_row in Hr as [-> ->].
    repeat split; intros H.
    - apply next_value_present; exact H.
    - apply next_value_absent; exact H.
    - apply next_value_present; exact H.
    - apply next_value_absent; exact H. }
  rewrite merged_rows_times.
  split; [exact Hsorted | ]. split; [exact Hnodup | ].
  split; [rewrite <- merged_rows_times; exact Hmem | ].
  split; [exact Hrow | ]. split.
  - intros Hh Hs Hdisj. rewrite merged_rows_length.
    rewrite nodup_fixed_point.
    + rewrite length_app. unfold timestamps. rewrite !length_map. reflexivity.
    + apply NoDup_app; assumption.
  - intros Hh Hs Hsame.
    assert (L1 : List.length (merged_rows heart_data spo2_data)
                 = List.length heart_data).
    { rewrite merged_rows_length.
      transitivity (List.length (timestamps heart_data));
        [ | unfold timestamps; apply length_map].
      apply Permutation_length. apply NoDup_Permutation.
      - apply NoDup_nodup.
      - exact Hh.
      - intros t. rewrite nodup_In, in_app_iff, <- Hsame. tauto. }
    assert (L2 : List.length (merged_rows heart_data spo2_data)
                 = List.length spo2_data).
    { rewrite merged_rows_length.
      transitivity (List.length (timestamps spo2_data));
        [ | unfold timestamps; apply length_map].
      apply Permutation_length. apply NoDup_Permutation.
      - apply NoDup_nodup.
      - exact Hs.
      - intros t. rewrite nodup_In, in_app_iff, Hsame. tauto. }
    split; [exact L1 | ]. split; [exact L2 | ].
    intros t hr sp Hr.
    assert (Ht : In t (timestamps heart_data) \/ In t (timestamps spo2_data)).
    { apply Hmem. apply (in_map row_time) in Hr. exact Hr. }
    assert (Hth : In t (timestamps heart_data))
      by (destruct Ht as [H | H]; [exact H | apply Hsame; exact H]).
    destruct (Hrow t hr sp Hr) as [H1 [_ [H2 _]]].
    split; [apply H1; exact Hth | apply H2; apply Hsame; exact Hth].
Qed.

(** C10. Duplicate timestamps inside a series.  The merged view keeps one
    row per timestamp, so it has as many rows as there are distinct
    timestamp strings in the two series together; when a timestamp occurs
    in a series, its row carries the value of the first sample of that
    series with this timestamp. *)
Theorem duplicate_timestamps (heart_data spo2_data : list sample) :
  let rows := merged_rows heart_data spo2_data in
  NoDup (map row_time rows)
  /\ List.length rows
     = List.length (nodup str_eq_dec (timestamps heart_data ++ timestamps spo2_data))
  /\ (forall before t v after,
        heart_data = before ++ (t, v) :: after ->
        ~ In t (timestamps before) ->
        (exists sp, In (t, v, sp) rows)
        /\ forall hr sp, In (t, hr, sp) rows -> hr = v)
  /\ (forall before t v after,
        spo2_data = before ++ (t, v) :: after ->
        ~ In t (timestamps before) ->
        (exists hr, In (t, hr, v) rows)
        /\ forall hr sp, In (t, hr, sp) rows -> sp = v).
Proof.
  intros rows. subst rows. split; [ | split; [ | split]].
  - rewrite merged_rows_times. unfold all_times.
    apply (all_distinct_sorted (timestamps heart_data ++ timestamps spo2_data)).
  - apply merged_rows_length.
  - intros before t v after E Hfirst.
    assert (Hv : next_value heart_data t (py_of_str empty_str) = v)
      by (rewrite E; apply next_value_first; exact Hfirst).
    split.
    + exists (next_value spo2_data t (py_of_str empty_str)).
      rewrite <- Hv. apply merged_rows_has_row. left.
      rewrite E. unfold timestamps. rewrite map_app. apply in_or_app.
      right. left. reflexivity.
    + intros hr sp Hr. apply merged_rows_row in Hr as [-> _]. exact Hv.
  - intros before t v after E Hfirst.
    assert (Hv : next_value spo2_data t (py_of_str empty_str) = v)
      by (rewrite E; apply next_value_first; exact Hfirst).
    split.
    + exists (next_value heart_data t (py_of_str empty_str)).
      rewrite <- Hv. apply merged_rows_has_row. right.
      rewrite E. unfold timestamps. rewrite map_app. apply in_or_app.
      right. left. reflexivity.
    + intros hr sp Hr. apply merged_rows_row in Hr as [_ ->]. exact Hv.
Qed.

End MergerFacts.

(** ** The compact message *)

Lemma len_app (a b : str) : len (a ++ b) = len a + len b.
Proof. unfold len. rewrite length_app. lia. Qed.

Lemma len_nonneg (a : str) : 0 <= len a.
Proof. unfold len. lia. Qed.

Lemma slice_to_neg (s : str) (k : Z) :
  0 < k -> k <= len s ->
  slice_to s (- k) = firstn (List.length s - Z.to_nat k) s.
Proof.
  intros Hk Hle. unfold slice_to.
  destruct (Z.ltb_spec (- k) 0) as [_ | H]; [ | lia].
  f_equal. unfold len in *. lia.
Qed.

Section ComposerFacts.

Context {pyobj : Type} {B : Builtins pyobj}.

Lemma shorten_message_cases (cfg : Config) (latest_hr latest_spo2 : pyobj)
    (timestamp hospitals_link : str) :
  let base := compact_base latest_hr latest_spo2 timestamp in
  let links := compact_links hospitals_link in
  let K := len (base ++ links) - SMS_CHAR_LIMIT cfg in
  shorten_message cfg latest_hr latest_spo2 timestamp hospitals_link
  = if (0 <? K) && (K <? len links)
    then base ++ firstn (List.length links - Z.to_nat K) links
    else base ++ links.
Proof.
  intros base links K. unfold shorten_message.
  fold base. fold links. fold K.
  replace (SMS_CHAR_LIMIT cfg <? len (base ++ links)) with (0 <? K)
    by (unfold K; destruct (Z.ltb_spec 0 (len (base ++ links) - SMS_CHAR_LIMIT cfg));
        destruct (Z.ltb_spec (SMS_CHAR_LIMIT cfg) (len (base ++ links)));
        reflexivity || lia).
  destruct (Z.ltb_spec 0 K) as [Hpos | Hneg]; simpl; [ | reflexivity].
  destruct (Z.ltb_spec K (len links)) as [Hlt | Hge]; [ | reflexivity].
  rewrite slice_to_neg by lia. reflexivity.
Qed.

(** C1 (amended). Compact composition.  Let the unshortened message exceed
    the limit by [K > 0] characters.  When [K] is smaller than the length
    of the link field (the marker [H:] followed by the link), exactly [K]
    characters are taken off the end of that field and the message has the
    length of the limit; in particular for [K] up to the length of the
    link itself the marker is intact and the link is [K] characters
    shorter, empty when [K] is its length.  When [K] reaches the length of
    the link field the message is returned unshortened.  In every case the
    HR/SpO2/Time portion is unchanged and what follows it is a prefix of
    the link field. *)
Theorem compact_composition (cfg : Config) (latest_hr latest_spo2 : pyobj)
    (timestamp hospitals_link : str) :
  let base := compact_base latest_hr latest_spo2 timestamp in
  let links := compact_links hospitals_link in
  let K := len (base ++ links) - SMS_CHAR_LIMIT cfg in
  let out := shorten_message cfg latest_hr latest_spo2 timestamp hospitals_link in
  0 < K ->
  (K < len links ->
     out = base ++ firstn (List.length links - Z.to_nat K) links
     /\ len out = SMS_CHAR_LIMIT cfg)
  /\ (K <= len hospitals_link ->
        out = base ++ lit "H:"
                ++ firstn (List.length hospitals_link - Z.to_nat K) hospitals_link)
  /\ (len links <= K -> out = base ++ links)
  /\ exists n, out = base ++ firstn n links.
Proof.
  intros base links K out HK. subst out.
  rewrite shorten_message_cases. fold base. fold links. fold K.
  assert (Hlinks : len links = 2 + len hospitals_link).
  { unfold links, compact_links. rewrite len_app. reflexivity. }
  replace (0 <? K) with true by (symmetry; apply Z.ltb_lt; exact HK).
  rewrite andb_true_l.
  assert (HKdef : K = len base + len links - SMS_CHAR_LIMIT cfg)
    by (unfold K; rewrite len_app; reflexivity).
  split; [ | split; [ | split]].
  - intros Hlt. rewrite (proj2 (Z.ltb_lt _ _) Hlt). split; [reflexivity | ].
    rewrite len_app. unfold len in *. rewrite length_firstn. lia.
  - intros Hle.
    replace (K <? len links) with true by (symmetry; apply Z.ltb_lt; lia).
    unfold links, compact_links. f_equal.
    assert (Hn : (List.length (lit "H:" ++ hospitals_link) - Z.to_nat K
                  = S (S (List.length hospitals_link - Z.to_nat K)))%nat).
    { rewrite length_app. change (List.length (lit "H:")) with 2%nat.
      unfold len in Hle. clear - HK Hle. clearbody K. lia. }
    rewrite Hn. reflexivity.
  - intros Hge.
    replace (K <? len links) with false by (symmetry; apply Z.ltb_ge; exact Hge).
    reflexivity.
  - destruct (K <? len links).
    + eexists. reflexivity.
    + exists (List.length links). rewrite firstn_all. reflexivity.
Qed.

(** C2 (amended). Mode resolution.  A true flag selects the compact
    message and a false flag the full, multi-line message.  The flag is
    true when the variable is absent from the environment (its default
    is the word true), and when it is set it is true exactly for the
    values that read 1, true or yes once lowercased. *)
Theorem mode_resolution (cfg : Config) (now : str) (latest_hr latest_spo2 : pyobj)
    (hospitals_link : str) :
  (TRIAL_ACCOUNT cfg = true ->
     create_alert_message cfg now latest_hr latest_spo2 hospitals_link
     = shorten_message cfg latest_hr latest_spo2 now hospitals_link)
  /\ (TRIAL_ACCOUNT cfg = false ->
        create_alert_message cfg now latest_hr latest_spo2 hospitals_link
        = full_message latest_hr latest_spo2 now hospitals_link)
  /\ TRIAL_ACCOUNT_of_env None = true
  /\ (forall v, TRIAL_ACCOUNT_of_env (Some v) = true
                <-> lower v = lit "1" \/ lower v = lit "true" \/ lower v = lit "yes").
Proof.
  unfold create_alert_message. split; [ | split; [ | split]].
  - intros ->. reflexivity.
  - intros ->. reflexivity.
  - reflexivity.
  - intros v. unfold TRIAL_ACCOUNT_of_env. simpl getenv.
    destruct (in_dec _ _ _) as [Hin | Hn].
    + split; [intros _ | reflexivity].
      simpl in Hin. destruct Hin as [E | [E | [E | []]]]; auto.
    + split; [discriminate | ]. intros Hv.
      exfalso. apply Hn. simpl. destruct Hv as [E | [E | E]]; auto.
Qed.

End ComposerFacts.

(** ** The wrapping loop *)

Lemma len_concat_cons (c : str) (l : list str) :
  len (List.concat (c :: l)) = len c + len (List.concat l).
Proof. simpl. apply len_app. Qed.

Lemma drop_leading_blank_spec (have_lines : bool) (chunks : list str) :
  exists d, chunks = d ++ drop_leading_blank have_lines chunks
            /\ Forall (fun c => is_blank c = true) d
            /\ (d = [] \/ drop_leading_blank have_lines chunks = tl chunks).
Proof.
  unfold drop_leading_blank. destruct chunks as [ | c rest].
  - exists []. repeat split; auto.
  - destruct (is_blank c && have_lines) eqn:E.
    + apply andb_true_iff in E as [Hc _].
      exists [c]. repeat split; auto.
    + exists []. repeat split; auto.
Qed.

Lemma take_fitting_spec (width : Z) (chunks : list str) :
  forall n cur_line rest,
    take_fitting width n chunks = (cur_line, rest) ->
    chunks = cur_line ++ rest
    /\ (cur_line = [] \/ n + len (List.concat cur_line) <= width)
    /\ (cur_line = [] ->
        match rest with [] => True | c :: _ => width < n + len c end).
Proof.
  induction chunks as [ | c chunks IH]; intros n cur_line rest; simpl.
  - intros E. injection E as <- <-. auto.
  - destruct (Z.leb_spec (n + len c) width) as [Hfit | Hno].
    + destruct (take_fitting width (n + len c) chunks) as [cl r] eqn:Et.
      intros E. injection E as <- <-.
      destruct (IH _ _ _ Et) as [-> [Hb _]].
      split; [reflexivity | ]. split; [ | discriminate].
      right. rewrite len_concat_cons.
      destruct Hb as [-> | Hb]; [simpl; unfold len in *; simpl; lia | lia].
    + intros E. injection E as <- <-. auto.
Qed.

Lemma place_long_word_spec (width : Z) (cur_line chunks : list str) :
  forall cur_line' rest,
    (cur_line = [] \/ len (List.concat cur_line) <= width) ->
    (cur_line = [] -> match chunks with [] => True | c :: _ => width < len c end) ->
    place_long_word width cur_line chunks = (cur_line', rest) ->
    cur_line ++ chunks = cur_line' ++ rest
    /\ (cur_line' = [] \/ len (List.concat cur_line') <= width
        \/ exists t, cur_line' = [t])
    /\ (cur_line' = [] -> rest = []).
Proof.
  intros cur_line' rest Hb Hhead. unfold place_long_word, handle_long_word.
  destruct chunks as [ | c chunks].
  - intros E. injection E as <- <-. repeat split; tauto.
  - destruct cur_line as [ | x cur_line].
    + specialize (Hhead eq_refl). apply Z.ltb_lt in Hhead. rewrite Hhead.
      intros E. injection E as <- <-.
      split; [reflexivity | ]. split; [ | discriminate].
      right. right. exists c. reflexivity.
    + assert (Hsame : (if width <? len c then (x :: cur_line, c :: chunks)
                       else (x :: cur_line, c :: chunks))
                      = (x :: cur_line, c :: chunks))
        by (destruct (width <? len c); reflexivity).
      rewrite Hsame. intros E. injection E as <- <-.
      split; [reflexivity | ]. split; [ | discriminate].
      destruct Hb as [Hb | Hb]; [discriminate | auto].
Qed.

Lemma len_concat_app (a b : list str) :
  len (List.concat (a ++ b)) = len (List.concat a) + len (List.concat b).
Proof. rewrite concat_app. apply len_app. Qed.

Lemma drop_trailing_blank_spec (width : Z) (cur_line : list str) :
  (cur_line = [] \/ len (List.concat cur_line) <= width \/ exists t, cur_line = [t]) ->
  exists d,
    cur_line = drop_trailing_blank cur_line ++ d
    /\ Forall (fun c => is_blank c = true) d
    /\ (drop_trailing_blank cur_line = []
        \/ len (List.concat (drop_trailing_blank cur_line)) <= width
        \/ exists t, drop_trailing_blank cur_line = [t]).
Proof.
  intros Hb. unfold drop_trailing_blank.
  destruct cur_line as [ | x cur_line].
  - exists []. repeat split; auto.
  - destruct (is_blank (last (x :: cur_line) [])) eqn:Hblank.
    + exists [last (x :: cur_line) []].
      split; [apply app_removelast_last; discriminate | ].
      split; [constructor; [exact Hblank | constructor] | ].
      destruct Hb as [Hb | [Hb | [t Hb]]]; [discriminate | | ].
      * right. left.
        rewrite (app_removelast_last [] (l := x :: cur_line)) in Hb by discriminate.
        rewrite len_concat_app in Hb.
        pose proof (len_nonneg (List.concat [last (x :: cur_line) []])). lia.
      * left. injection Hb as -> ->. reflexivity.
    + exists []. rewrite app_nil_r. repeat split; auto.
Qed.

Lemma wrap_line_step_spec (width : Z) (have_lines : bool) (chunks : list str) :
  forall line rest,
    wrap_line_step width have_lines chunks = (line, rest) ->
    exists d1 toks d2,
      chunks = d1 ++ toks ++ d2 ++ rest
      /\ Forall (fun c => is_blank c = true) d1
      /\ Forall (fun c => is_blank c = true) d2
      /\ line = match toks with [] => None | _ :: _ => Some (List.concat toks) end
      /\ (toks = [] \/ len (List.concat toks) <= width \/ exists t, toks = [t])
      /\ (chunks <> [] -> (List.length rest < List.length chunks)%nat).
Proof.
  intros line rest. unfold wrap_line_step.
  destruct (drop_leading_blank_spec have_lines chunks) as [d1 [E1 [Hd1 Htl]]].
  destruct (take_fitting width 0 (drop_leading_blank have_lines chunks))
    as [cl r] eqn:Et.
  destruct (take_fitting_spec _ _ _ _ _ Et) as [E2 [Hb2 Hhead]].
  destruct (place_long_word width cl r) as [cl' r'] eqn:Ep.
  destruct (place_long_word_spec width cl r cl' r') as [E3 [Hb3 Hrest]];
    [ destruct Hb2 as [Hb2 | Hb2]; [left; exact Hb2 | right; lia]
    | intros Hcl; specialize (Hhead Hcl); destruct r; [exact I | lia]
    | exact Ep | ].
  destruct (drop_trailing_blank_spec width cl' Hb3) as [d2 [E4 [Hd2 Hb4]]].
  intros E.
  assert (Hline : line = match drop_trailing_blank cl' with
                         | [] => None
                         | _ :: _ => Some (List.concat (drop_trailing_blank cl'))
                         end /\ rest = r')
    by (destruct (drop_trailing_blank cl'); injection E as <- <-; auto).
  destruct Hline as [Hline ->].
  exists d1, (drop_trailing_blank cl'), d2.
  assert (Hall : chunks = d1 ++ cl' ++ r')
    by (rewrite E1 at 1; rewrite E2, E3; reflexivity).
  split; [rewrite Hall; rewrite E4 at 1; rewrite <- !app_assoc; reflexivity | ].
  split; [exact Hd1 | ]. split; [exact Hd2 | ]. split; [exact Hline | ].
  split; [exact Hb4 | ].
  intros Hne. destruct cl' as [ | t cl'].
  - rewrite (Hrest eq_refl). destruct chunks; [contradiction | simpl; lia].
  - rewrite Hall. rewrite !length_app. simpl. lia.
Qed.

Lemma chunked_drop (width : Z) (d rest lines : list str) :
  Forall (fun c => is_blank c = true) d ->
  chunked width rest lines ->
  chunked width (d ++ rest) lines.
Proof.
  intros Hd H. destruct H as [dropped Hdr | dropped toks rest lines Hdr Hne Hb Hrest].
  - constructor. apply Forall_app. split; assumption.
  - rewrite app_assoc. constructor; try assumption.
    apply Forall_app. split; assumption.
Qed.

(** The loop ends before its fuel does, and its lines are [chunked]. *)
Lemma wrap_loop_terminates (width : Z) (fuel : nat) :
  forall lines chunks,
    (List.length chunks <= fuel)%nat ->
    exists new,
      wrap_loop fuel width lines chunks = Ok (lines ++ new)
      /\ chunked width chunks new.
Proof.
  induction fuel as [ | fuel IH]; intros lines chunks Hfuel.
  - destruct chunks; [ | simpl in Hfuel; lia].
    exists []. split; [simpl; rewrite app_nil_r; reflexivity | ].
    constructor. constructor.
  - destruct chunks as [ | c chunks].
    + exists []. split; [simpl; rewrite app_nil_r; reflexivity | ].
      constructor. constructor.
    + change (wrap_loop (S fuel) width lines (c :: chunks))
        with (let '(line, chunks') :=
                wrap_line_step width (nonempty lines) (c :: chunks) in
              wrap_loop fuel width
                (match line with Some l => lines ++ [l] | None => lines end)
                chunks').
      destruct (wrap_line_step width (nonempty lines) (c :: chunks))
        as [line rest] eqn:Es.
      destruct (wrap_line_step_spec _ _ _ _ _ Es)
        as [d1 [toks [d2 [Eall [Hd1 [Hd2 [Hline [Hb Hless]]]]]]]].
      specialize (Hless ltac:(discriminate)).
      destruct (IH (match line with Some l => lines ++ [l] | None => lines end) rest)
        as [new [Hrun Hch]]; [simpl in Hfuel, Hless; lia | ].
      rewrite Eall. destruct toks as [ | t toks]; subst line.
      * exists new. split; [exact Hrun | ].
        apply (chunked_drop width d1); [exact Hd1 | ].
        apply (chunked_drop width d2 rest); [exact Hd2 | exact Hch].
      * exists (List.concat (t :: toks) :: new).
        split; [rewrite Hrun, <- app_assoc; reflexivity | ].
        constructor; [exact Hd1 | discriminate | | ].
        -- destruct Hb as [Hb | Hb]; [discriminate | exact Hb].
        -- apply (chunked_drop width d2 rest); [exact Hd2 | exact Hch].
Qed.

Lemma wrap_chunks_ok (width : Z) (chunks : list str) :
  0 < width ->
  exists lines, wrap_chunks width chunks = Ok lines /\ chunked width chunks lines.
Proof.
  intros Hw. unfold wrap_chunks.
  destruct (Z.leb_spec width 0) as [H | _]; [lia | ].
  destruct (wrap_loop_terminates width (List.length chunks) [] chunks (le_n _))
    as [new [Hrun Hch]].
  exists new. split; [exact Hrun | exact Hch].
Qed.

(** More fuel does not change the result. *)
Lemma wrap_loop_fuel (width : Z) (fuel : nat) :
  forall fuel' lines chunks,
    (List.length chunks <= fuel)%nat ->
    (List.length chunks <= fuel')%nat ->
    wrap_loop fuel width lines chunks = wrap_loop fuel' width lines chunks.
Proof.
  induction fuel as [ | fuel IH]; intros fuel' lines chunks Hfuel Hfuel'.
  - destruct chunks; [destruct fuel'; reflexivity | simpl in Hfuel; lia].
  - destruct chunks as [ | c chunks]; [destruct fuel'; reflexivity | ].
    destruct fuel' as [ | fuel']; [simpl in Hfuel'; lia | ].
    cbn [wrap_loop].
    destruct (wrap_line_step width (nonempty lines) (c :: chunks))
      as [line rest] eqn:Es.
    destruct (wrap_line_step_spec _ _ _ _ _ Es)
      as [_ [_ [_ [_ [_ [_ [_ [_ Hless]]]]]]]].
    specialize (Hless ltac:(discriminate)). simpl in Hless, Hfuel, Hfuel'.
    apply IH; lia.
Qed.

(** ** Parts handed to the SMS client *)

Lemma enumerate_In {A} (l : list A) :
  forall k i x,
    In (i, x) (enumerate l k)
    <-> exists j, i = (k + j)%nat /\ nth_error l j = Some x.
Proof.
  induction l as [ | y l IH]; intros k i x; simpl.
  - split; [contradiction | ]. intros [[ | j] [_ H]]; discriminate.
  - split.
    + intros [E | Hin].
      * injection E as <- <-. exists 0%nat. split; [lia | reflexivity].
      * apply IH in Hin as [j [-> Hj]]. exists (S j). split; [lia | exact Hj].
    + intros [[ | j] [-> H]].
      * left. injection H as ->. f_equal. lia.
      * right. apply IH. exists j. split; [lia | exact H].
Qed.

Lemma chunked_lines (width : Z) (tokens lines : list str) :
  chunked width tokens lines ->
  Forall (fun line => len line <= width \/ In line tokens) lines.
Proof.
  induction 1 as [dropped Hd | dropped toks rest lines Hd Hne Hb Hrest IH].
  - constructor.
  - constructor.
    + destruct Hb as [Hb | [t ->]]; [left; exact Hb | right].
      simpl. rewrite app_nil_r. apply in_or_app. right. left. reflexivity.
    + apply Forall_impl with (2 := IH). intros line [H | H]; [left; exact H | right].
      apply in_or_app. right. apply in_or_app. right. exact H.
Qed.

Section TransportFacts.

Variable split_chunks : str -> list str.

(** C3 (amended). Transport chunking.  With a positive limit and at least
    one contact, the message is cut into chunks in reading order, each
    made of whole consecutive chunks of the tokenizer (words and runs of
    whitespace), only blank ones being dropped at a cut; a chunk is at
    most the limit long unless it is one single token, which is kept
    whole.  Every contact is sent every chunk, in order; when there are
    several chunks the body of chunk number [i] of [n] is the text
    [Part i/n: ] followed by the chunk, and a single chunk is sent
    as it is. *)
Theorem transport_chunking (cfg : Config) (EMERGENCY_CONTACTS : list str)
    (message : str) :
  0 < SMS_CHAR_LIMIT cfg ->
  EMERGENCY_CONTACTS <> [] ->
  exists chunks,
    wrap split_chunks message (SMS_CHAR_LIMIT cfg) = Ok chunks
    /\ chunked (SMS_CHAR_LIMIT cfg) (split_chunks message) chunks
    /\ Forall (fun chunk => len chunk <= SMS_CHAR_LIMIT cfg
                            \/ In chunk (split_chunks message)) chunks
    /\ send_twilio_alert split_chunks cfg true EMERGENCY_CONTACTS message
       = Ok (flat_map
               (fun '(i, chunk) =>
                  map (fun number =>
                         (number, part_body (List.length chunks) i chunk))
                      EMERGENCY_CONTACTS)
               (enumerate chunks 1))
    /\ (forall i chunk,
          (1 < List.length chunks)%nat ->
          part_body (List.length chunks) i chunk
          = lit "Part " ++ str_of_nat i ++ lit "/"
              ++ str_of_nat (List.length chunks) ++ lit ": " ++ chunk)
    /\ (forall i chunk,
          List.length chunks = 1%nat ->
          part_body (List.length chunks) i chunk = chunk).
Proof.
  intros Hlimit Hcontacts.
  destruct (wrap_chunks_ok (SMS_CHAR_LIMIT cfg) (split_chunks message) Hlimit)
    as [chunks [Hwrap Hch]].
  exists chunks. unfold send_twilio_alert, wrap. rewrite Hwrap.
  split; [reflexivity | ]. split; [exact Hch | ].
  split; [apply chunked_lines; exact Hch | ].
  split.
  - destruct EMERGENCY_CONTACTS; [contradiction | reflexivity].
  - split; intros i chunk Hn; unfold part_body.
    + apply Nat.ltb_lt in Hn. rewrite Hn. reflexivity.
    + rewrite Hn. reflexivity.
Qed.

End TransportFacts.

(** ** The design document's examples, run on the program *)

Example end_to_end_default :
  evaluate_alerts default_config example_heart example_spo2
  = (true,
     [low_hr_reason default_config (lit "2024-01-01T10:00:00+05:30") (TInt 48)],
     TInt 72, TInt 91).
Proof. vm_compute. reflexivity. Qed.

Example end_to_end_oxygen_92 :
  evaluate_alerts (with_spo2_low default_config (float_lit 92))
    example_heart example_spo2
  = (true,
     [low_hr_reason default_config (lit "2024-01-01T10:00:00+05:30") (TInt 48);
      low_spo2_reason (with_spo2_low default_config (float_lit 92))
        (lit "2024-01-01T10:00:00+05:30") (TInt 91)],
     TInt 72, TInt 91).
Proof. vm_compute. reflexivity. Qed.

Example low_hr_reason_text :
  low_hr_reason default_config (lit "T") (TInt 48)
  = lit "Low HR 48 bpm at T (" ++ [LESS_EQUAL] ++ lit " 50.0)".
Proof. vm_compute. reflexivity. Qed.

(** Two chunks that fit the limit get bodies that do not: the prefix is
    added after the wrapping. *)
Example prefix_added_after_wrapping :
  send_twilio_alert split_chunks_plain (with_limit default_config 5) true
    [lit "+10"] (lit "aaaa bbbb")
  = Ok [(lit "+10", lit "Part 1/2: aaaa"); (lit "+10", lit "Part 2/2: bbbb")].
Proof. vm_compute. reflexivity. Qed.

(** ** Inputs on which the design document's wording fails *)

(** C1, as stated, fails: with a limit of 30 the overflow (54) exceeds the
    link field, and the message comes back unshortened instead of with an
    empty link. *)
Lemma compact_composition_counterexample :
  shorten_message (with_limit default_config 30) (TInt 72) (TInt 98)
    example_now default_link
  = compact_base (TInt 72) (TInt 98) example_now ++ lit "H:" ++ default_link
  /\ spec_shorten_message (with_limit default_config 30) (TInt 72) (TInt 98)
       example_now default_link
     = compact_base (TInt 72) (TInt 98) example_now ++ lit "H:"
  /\ shorten_message (with_limit default_config 30) (TInt 72) (TInt 98)
       example_now default_link
     <> spec_shorten_message (with_limit default_config 30) (TInt 72) (TInt 98)
          example_now default_link.
Proof.
  split; [vm_compute; reflexivity | ].
  split; [vm_compute; reflexivity | ].
  intros E. apply (f_equal (@List.length char)) in E.
  vm_compute in E. discriminate E.
Qed.

(** C2, as stated, fails: with the variable absent from the environment
    the flag is true and the compact message is produced, not the full
    one. *)
Lemma mode_resolution_counterexample :
  TRIAL_ACCOUNT default_config = TRIAL_ACCOUNT_of_env None
  /\ create_alert_message default_config example_now (TInt 72) (TInt 98) default_link
     <> full_message (TInt 72) (TInt 98) example_now default_link.
Proof.
  split; [reflexivity | ].
  intros E. apply (f_equal (@List.length char)) in E.
  vm_compute in E. discriminate E.
Qed.

(** C3, as stated, fails: a word longer than the limit is kept whole, so
    the first part exceeds the limit even before its prefix. *)
Lemma transport_chunking_counterexample :
  send_twilio_alert split_chunks_plain (with_limit default_config 5) true
    [lit "+10"] (lit "aaaaaaaaaa bb")
  = Ok [(lit "+10", lit "Part 1/2: aaaaaaaaaa"); (lit "+10", lit "Part 2/2: bb")]
  /\ ~ parts_within_limit 5
         [(lit "+10", lit "Part 1/2: aaaaaaaaaa"); (lit "+10", lit "Part 2/2: bb")].
Proof.
  split; [vm_compute; reflexivity | ].
  intros H. inversion H as [ | call calls Hlen _]. vm_compute in Hlen.
  apply Hlen. reflexivity.
Qed.

(** C5, as stated, fails: a series that repeats a timestamp has disjoint
    timestamps from the empty series, and yet one row, not two. *)
Lemma series_merge_counterexample :
  let heart_data := [(lit "a", TInt 60); (lit "a", TInt 61)] in
  let spo2_data := @nil (sample_of test_obj) in
  (forall t, In t (timestamps heart_data) -> ~ In t (timestamps spo2_data))
  /\ List.length (merged_rows heart_data spo2_data)
     <> (List.length heart_data + List.length spo2_data)%nat.
Proof.
  split.
  - intros t _ H. exact H.
  - vm_compute. discriminate.
Qed.

(** ** The theorems applied to concrete inputs *)

Lemma compact_composition_witness :
  0 < len (compact_base (TInt 72) (TInt 98) example_now ++ compact_links default_link)
      - SMS_CHAR_LIMIT (with_limit default_config 60)
  /\ shorten_message (with_limit default_config 60) (TInt 72) (TInt 98)
       example_now default_link
     = compact_base (TInt 72) (TInt 98) example_now
         ++ lit "H:" ++ lit "https://maps.google.".
Proof.
  split; [reflexivity | ].
  destruct (compact_composition (with_limit default_config 60) (TInt 72) (TInt 98)
              example_now default_link) as [_ [H _]]; [reflexivity | ].
  rewrite H; [reflexivity | vm_compute; discriminate].
Defined.

Lemma mode_resolution_witness :
  TRIAL_ACCOUNT default_config = true
  /\ create_alert_message default_config example_now (TInt 72) (TInt 98) default_link
     = shorten_message default_config (TInt 72) (TInt 98) example_now default_link.
Proof.
  split; [reflexivity | ].
  exact (proj1 (mode_resolution default_config example_now (TInt 72) (TInt 98)
                  default_link) eq_refl).
Defined.

Lemma transport_chunking_witness :
  0 < SMS_CHAR_LIMIT (with_limit default_config 5)
  /\ [lit "+10"] <> []
  /\ exists chunks,
       wrap split_chunks_plain (lit "aaaa bbbb") 5 = Ok chunks
       /\ chunked 5 (split_chunks_plain (lit "aaaa bbbb")) chunks.
Proof.
  split; [reflexivity | ]. split; [discriminate | ].
  destruct (transport_chunking split_chunks_plain (with_limit default_config 5)
              [lit "+10"] (lit "aaaa bbbb")) as [chunks [Hw [Hc _]]];
    [reflexivity | discriminate | ].
  exists chunks. split; [exact Hw | exact Hc].
Defined.

Lemma threshold_triggering_witness :
  let cfg := with_high default_config (float_lit 120) in
  needs_alert (evaluate_alerts cfg example_heart example_spo2) = true
  /\ (exists r, In r (reasons_of (evaluate_alerts cfg example_heart example_spo2))
                /\ mentions r (lit "2024-01-01T10:00:00+05:30"))
  /\ reasons_of (evaluate_alerts cfg example_heart example_spo2)
     = reasons_of (evaluate_alerts cfg
                     [(lit "2024-01-01T10:00:00+05:30", TInt 48)] example_spo2).
Proof.
  intros cfg.
  destruct (threshold_triggering cfg example_heart example_spo2) as [Hlow Hmid].
  destruct (Hlow (lit "2024-01-01T10:00:00+05:30") (TInt 48) (float_lit 48))
    as [Hflag Hreason];
    [left; reflexivity | reflexivity | reflexivity | ].
  split; [exact Hflag | ]. split; [exact Hreason | ].
  apply (Hmid (float_lit 120) [(lit "2024-01-01T10:00:00+05:30", TInt 48)] []
           (lit "2024-01-01T10:05:00+05:30") (TInt 72) (float_lit 72));
    reflexivity.
Defined.

Lemma series_merge_witness :
  let heart_data := [(lit "a", TInt 60)] in
  let spo2_data := [(lit "b", TInt 97)] in
  NoDup (timestamps heart_data)
  /\ NoDup (timestamps spo2_data)
  /\ (forall t, In t (timestamps heart_data) -> ~ In t (timestamps spo2_data))
  /\ List.length (merged_rows heart_data spo2_data) = 2%nat.
Proof.
  intros heart_data spo2_data.
  assert (Hh : NoDup (timestamps heart_data))
    by (constructor; [simpl; tauto | constructor]).
  assert (Hs : NoDup (timestamps spo2_data))
    by (constructor; [simpl; tauto | constructor]).
  assert (Hd : forall t, In t (timestamps heart_data) -> ~ In t (timestamps spo2_data))
    by (intros t [<- | []] [E | []]; discriminate E).
  split; [exact Hh | ]. split; [exact Hs | ]. split; [exact Hd | ].
  destruct (series_merge heart_data spo2_data) as [_ [_ [_ [_ [Hcount _]]]]].
  exact (Hcount Hh Hs Hd).
Defined.

Lemma malformed_values_skipped_witness :
  py_float (TStr (lit "n/a")) = None
  /\ reasons_of (evaluate_alerts default_config
                   ((lit "2024-01-01T09:55:00+05:30", TStr (lit "n/a")) :: example_heart)
                   example_spo2)
     = reasons_of (evaluate_alerts default_config example_heart example_spo2).
Proof.
  split; [reflexivity | ].
  destruct (malformed_values_skipped (B := test_builtins) default_config
              (lit "2024-01-01T09:55:00+05:30") (TStr (lit "n/a")) eq_refl)
    as [_ [_ [_ [Hheart _]]]].
  exact (proj2 (Hheart [] example_heart example_spo2)).
Defined.

Lemma duplicate_timestamps_witness :
  let heart_data := [(lit "a", TInt 60); (lit "a", TInt 61)] in
  let spo2_data := @nil (sample_of test_obj) in
  (exists sp, In (lit "a", TInt 60, sp) (merged_rows heart_data spo2_data))
  /\ forall hr sp, In (lit "a", hr, sp) (merged_rows heart_data spo2_data)
                   -> hr = TInt 60.
Proof.
  intros heart_data spo2_data.
  destruct (duplicate_timestamps heart_data spo2_data) as [_ [_ [Hfirst _]]].
  apply (Hfirst [] (lit "a") (TInt 60) [(lit "a", TInt 61)]).
  - reflexivity.
  - simpl. tauto.
Defined.

(* ================================================================== *)
(** * Part III: further properties of the program *)
(* ================================================================== *)

(** ** More on the evaluator *)

Lemma SFleb_nan_r (x : spec_float) : SFleb x S754_nan = false.
Proof. destruct x; reflexivity. Qed.

Lemma SFleb_nan_l (x : spec_float) : SFleb S754_nan x = false.
Proof. destruct x; reflexivity. Qed.

Section EvaluatorMore.

Context {pyobj : Type} {B : Builtins pyobj}.

#[local] Abbreviation sample := (sample_of pyobj).

Lemma high_hr_pass_nil (cfg : Config) : high_hr_pass cfg (@nil sample) = [].
Proof. unfold high_hr_pass. destruct (HR_HIGH_THRESHOLD cfg); reflexivity. Qed.

(** X1. The two series are judged independently: the reasons are those of
    the heart-rate series alone followed by those of the oxygen series
    alone, and the flag is the disjunction of the two flags. *)
Theorem evaluate_alerts_by_series (cfg : Config) (heart_data spo2_data : list sample) :
  reasons_of (evaluate_alerts cfg heart_data spo2_data)
  = reasons_of (evaluate_alerts cfg heart_data [])
      ++ reasons_of (evaluate_alerts cfg [] spo2_data)
  /\ needs_alert (evaluate_alerts cfg heart_data spo2_data)
     = needs_alert (evaluate_alerts cfg heart_data [])
       || needs_alert (evaluate_alerts cfg [] spo2_data).
Proof.
  rewrite !evaluate_alerts_unfold. unfold reasons_of, needs_alert, flagged. simpl.
  rewrite high_hr_pass_nil. unfold low_hr_pass, low_spo2_pass. simpl.
  rewrite !app_nil_r, <- app_assoc. split; [reflexivity | ].
  destruct (HR_HIGH_THRESHOLD cfg); rewrite !orb_false_r; reflexivity.
Qed.

(** X2. An alert is never lost by looking at more data: if the evaluator
    flags two series, it flags any two series that contain them as
    contiguous stretches. *)
Theorem alert_persists (cfg : Config) (heart_data spo2_data : list sample)
    (h1 h2 s1 s2 : list sample) :
  needs_alert (evaluate_alerts cfg heart_data spo2_data) = true ->
  needs_alert (evaluate_alerts cfg (h1 ++ heart_data ++ h2)
                 (s1 ++ spo2_data ++ s2)) = true.
Proof.
  rewrite !evaluate_alerts_unfold. unfold needs_alert, flagged. simpl.
  rewrite !existsb_app.
  destruct (HR_HIGH_THRESHOLD cfg) as [high | ].
  - rewrite !existsb_app. rewrite !orb_true_iff. tauto.
  - rewrite !orb_true_iff. tauto.
Qed.

(** X3. A sample gives at most one reason per pass: there are at most
    twice as many reasons as heart-rate samples plus the number of oxygen
    samples, and without a high bound at most as many as samples. *)
Theorem reasons_count_bound (cfg : Config) (heart_data spo2_data : list sample) :
  (List.length (reasons_of (evaluate_alerts cfg heart_data spo2_data))
   <= 2 * List.length heart_data + List.length spo2_data)%nat
  /\ (HR_HIGH_THRESHOLD cfg = None ->
      (List.length (reasons_of (evaluate_alerts cfg heart_data spo2_data))
       <= List.length heart_data + List.length spo2_data)%nat).
Proof.
  rewrite evaluate_alerts_unfold. unfold reasons_of. simpl.
  rewrite !length_app.
  assert (H1 : (List.length (low_hr_pass cfg heart_data) <= List.length heart_data)%nat)
    by (unfold low_hr_pass; rewrite length_map; apply filter_length_le).
  assert (H3 : (List.length (low_spo2_pass cfg spo2_data) <= List.length spo2_data)%nat)
    by (unfold low_spo2_pass; rewrite length_map; apply filter_length_le).
  assert (H2 : (List.length (high_hr_pass cfg heart_data) <= List.length heart_data)%nat).
  { unfold high_hr_pass. destruct (HR_HIGH_THRESHOLD cfg).
    - rewrite length_map. apply filter_length_le.
    - simpl. lia. }
  split; [lia | ].
  intros Hnone. unfold high_hr_pass in *. rewrite Hnone in *. simpl. lia.
Qed.

(** X4. The two heart-rate passes do not exclude each other: with bounds
    such that a value is both at or below the low one and at or above the
    high one, the sample is reported twice, and a series of that one
    sample gives the low reason followed by the high reason. *)
Theorem inverted_bounds_flag_twice (cfg : Config) (high x : spec_float)
    (heart_data spo2_data : list sample) (ts : str) (v : pyobj) :
  HR_HIGH_THRESHOLD cfg = Some high ->
  py_float v = Some x ->
  SFleb x (HR_LOW_THRESHOLD cfg) = true ->
  SFleb high x = true ->
  (In (ts, v) heart_data ->
   In (low_hr_reason cfg ts v) (reasons_of (evaluate_alerts cfg heart_data spo2_data))
   /\ In (high_hr_reason high ts v)
        (reasons_of (evaluate_alerts cfg heart_data spo2_data)))
  /\ reasons_of (evaluate_alerts cfg [(ts, v)] [])
     = [low_hr_reason cfg ts v; high_hr_reason high ts v].
Proof.
  intros Hhigh Hx Hlow Hup.
  assert (Hb : at_or_below (HR_LOW_THRESHOLD cfg) (snd (ts, v)) = true)
    by (unfold at_or_below; simpl; rewrite Hx; exact Hlow).
  assert (Ha : at_or_above high (snd (ts, v)) = true)
    by (unfold at_or_above; simpl; rewrite Hx; exact Hup).
  split.
  - intros Hin. rewrite evaluate_alerts_unfold. unfold reasons_of. simpl.
    split.
    + apply in_or_app. left. unfold low_hr_pass.
      apply (in_map (fun s => low_hr_reason cfg (fst s) (snd s)) _ (ts, v)).
      apply filter_In. split; assumption.
    + apply in_or_app. right. apply in_or_app. left.
      unfold high_hr_pass. rewrite Hhigh.
      apply (in_map (fun s => high_hr_reason high (fst s) (snd s)) _ (ts, v)).
      apply filter_In. split; assumption.
  - rewrite evaluate_alerts_unfold. unfold reasons_of, low_hr_pass, high_hr_pass.
    simpl. simpl in Hb, Ha. rewrite Hhigh. simpl. rewrite Hb, Ha. reflexivity.
Qed.

(** X5. A value that converts to NaN is numeric, and yet no bound flags
    it: in either series the flag and the reasons are those of the series
    without the sample. *)
Theorem nan_value_never_flags (cfg : Config) (ts : str) (v : pyobj) :
  py_float v = Some S754_nan ->
  (forall before after spo2_data,
      needs_alert (evaluate_alerts cfg (before ++ (ts, v) :: after) spo2_data)
        = needs_alert (evaluate_alerts cfg (before ++ after) spo2_data)
      /\ reasons_of (evaluate_alerts cfg (before ++ (ts, v) :: after) spo2_data)
        = reasons_of (evaluate_alerts cfg (before ++ after) spo2_data))
  /\ (forall heart_data before after,
        needs_alert (evaluate_alerts cfg heart_data (before ++ (ts, v) :: after))
          = needs_alert (evaluate_alerts cfg heart_data (before ++ after))
        /\ reasons_of (evaluate_alerts cfg heart_data (before ++ (ts, v) :: after))
          = reasons_of (evaluate_alerts cfg heart_data (before ++ after))).
Proof.
  intros Hv.
  assert (Hbelow : forall bound, at_or_below bound (snd (ts, v)) = false)
    by (intros; unfold at_or_below; simpl; rewrite Hv; apply SFleb_nan_l).
  assert (Habove : forall bound, at_or_above bound (snd (ts, v)) = false)
    by (intros; unfold at_or_above; simpl; rewrite Hv; apply SFleb_nan_r).
  split; intros.
  - apply (unflagged_heart_sample cfg before after spo2_data (ts, v)); auto.
  - apply (unflagged_spo2_sample cfg heart_data before after (ts, v)); auto.
Qed.

Lemma filter_none {A} (p : A -> bool) (l : list A) :
  (forall x, In x l -> p x = false) -> filter p l = [].
Proof.
  induction l as [ | x l IH]; simpl; intros H; [reflexivity | ].
  rewrite (H x (or_introl eq_refl)). apply IH. intros y Hy. apply H. right. exact Hy.
Qed.

Lemma existsb_none {A} (p : A -> bool) (l : list A) :
  (forall x, In x l -> p x = false) -> existsb p l = false.
Proof.
  induction l as [ | x l IH]; simpl; intros H; [reflexivity | ].
  rewrite (H x (or_introl eq_refl)). apply IH. intros y Hy. apply H. right. exact Hy.
Qed.

(** X6. Thresholds that are NaN switch the checks off: when the three
    bounds are NaN (or the high one absent) no data raises an alert. *)
Theorem nan_thresholds_never_alert (cfg : Config) (heart_data spo2_data : list sample) :
  HR_LOW_THRESHOLD cfg = S754_nan ->
  SPO2_LOW_THRESHOLD cfg = S754_nan ->
  (HR_HIGH_THRESHOLD cfg = None \/ HR_HIGH_THRESHOLD cfg = Some S754_nan) ->
  needs_alert (evaluate_alerts cfg heart_data spo2_data) = false
  /\ reasons_of (evaluate_alerts cfg heart_data spo2_data) = [].
Proof.
  intros Hlow Hsp Hhigh.
  assert (Hbelow : forall (s : sample), at_or_below S754_nan (snd s) = false)
    by (intros s; unfold at_or_below; destruct (py_float (snd s));
        [apply SFleb_nan_r | reflexivity]).
  assert (Habove : forall (s : sample), at_or_above S754_nan (snd s) = false)
    by (intros s; unfold at_or_above; destruct (py_float (snd s));
        [apply SFleb_nan_l | reflexivity]).
  rewrite evaluate_alerts_unfold.
  unfold needs_alert, reasons_of, flagged, low_hr_pass, high_hr_pass, low_spo2_pass.
  simpl. rewrite Hlow, Hsp.
  rewrite !(filter_none (fun s : sample => at_or_below S754_nan (snd s))) by auto.
  rewrite !(existsb_none (fun s : sample => at_or_below S754_nan (snd s))) by auto.
  destruct Hhigh as [-> | ->]; [split; reflexivity | ].
  rewrite (filter_none (fun s : sample => at_or_above S754_nan (snd s))) by auto.
  rewrite (existsb_none (fun s : sample => at_or_above S754_nan (snd s))) by auto.
  split; reflexivity.
Qed.

(** X7. Readings inside the bounds raise nothing: when every heart-rate
    value is numeric and strictly above the low bound (and strictly below
    the high bound, if there is one) and every oxygen value is numeric and
    strictly above its bound, there is no alert and no reason. *)
Theorem readings_in_range_no_alert (cfg : Config) (heart_data spo2_data : list sample) :
  (forall ts v, In (ts, v) heart_data ->
     exists x, py_float v = Some x
               /\ SFltb (HR_LOW_THRESHOLD cfg) x = true
               /\ forall high, HR_HIGH_THRESHOLD cfg = Some high -> SFltb x high = true) ->
  (forall ts v, In (ts, v) spo2_data ->
     exists x, py_float v = Some x /\ SFltb (SPO2_LOW_THRESHOLD cfg) x = true) ->
  needs_alert (evaluate_alerts cfg heart_data spo2_data) = false
  /\ reasons_of (evaluate_alerts cfg heart_data spo2_data) = [].
Proof.
  intros Hheart Hspo2.
  assert (H1 : forall s, In s heart_data ->
                 at_or_below (HR_LOW_THRESHOLD cfg) (snd s) = false).
  { intros [ts v] Hin. destruct (Hheart ts v Hin) as [x [Hx [Hlt _]]].
    unfold at_or_below. simpl. rewrite Hx. apply SFltb_not_SFleb. exact Hlt. }
  assert (H2 : forall high, HR_HIGH_THRESHOLD cfg = Some high ->
                 forall s, In s heart_data -> at_or_above high (snd s) = false).
  { intros high Hhigh [ts v] Hin. destruct (Hheart ts v Hin) as [x [Hx [_ Hlt]]].
    unfold at_or_above. simpl. rewrite Hx. apply SFltb_not_SFleb. auto. }
  assert (H3 : forall s, In s spo2_data ->
                 at_or_below (SPO2_LOW_THRESHOLD cfg) (snd s) = false).
  { intros [ts v] Hin. destruct (Hspo2 ts v Hin) as [x [Hx Hlt]].
    unfold at_or_below. simpl. rewrite Hx. apply SFltb_not_SFleb. exact Hlt. }
  rewrite evaluate_alerts_unfold.
  unfold needs_alert, reasons_of, flagged, low_hr_pass, high_hr_pass, low_spo2_pass.
  simpl.
  rewrite (filter_none (fun s : str * pyobj => at_or_below (HR_LOW_THRESHOLD cfg) (snd s))
             _ H1).
  rewrite (existsb_none (fun s : str * pyobj => at_or_below (HR_LOW_THRESHOLD cfg) (snd s))
             _ H1).
  rewrite (filter_none (fun s : str * pyobj => at_or_below (SPO2_LOW_THRESHOLD cfg) (snd s))
             _ H3).
  rewrite (existsb_none (fun s : str * pyobj => at_or_below (SPO2_LOW_THRESHOLD cfg) (snd s))
             _ H3).
  destruct (HR_HIGH_THRESHOLD cfg) as [high | ]; [ | split; reflexivity].
  rewrite (filter_none (fun s : str * pyobj => at_or_above high (snd s)) _ (H2 high eq_refl)).
  rewrite (existsb_none (fun s : str * pyobj => at_or_above high (snd s)) _ (H2 high eq_refl)).
  split; reflexivity.
Qed.

End EvaluatorMore.

(** ** More on the merged view *)

(** A strictly ascending list is determined by its elements. *)
Lemma sorted_unique (l1 l2 : list str) :
  StronglySorted str_lt l1 ->
  StronglySorted str_lt l2 ->
  (forall t, In t l1 <-> In t l2) ->
  l1 = l2.
Proof.
  intros H1. revert l2. induction H1 as [ | x l1 Hs1 IH Hx]; intros l2 H2 Hmem.
  - destruct l2 as [ | y l2]; [reflexivity | ].
    exfalso. apply (proj2 (Hmem y)). left. reflexivity.
  - destruct H2 as [ | y l2 Hs2 Hy].
    + exfalso. apply (proj1 (Hmem x)). left. reflexivity.
    + rewrite Forall_forall in Hx, Hy.
      assert (Exy : x = y).
      { destruct (proj1 (Hmem x) (or_introl eq_refl)) as [E | Hin1]; [auto | ].
        destruct (proj2 (Hmem y) (or_introl eq_refl)) as [E | Hin2]; [auto | ].
        exfalso. apply (str_lt_irrefl x).
        apply str_lt_trans with y; [apply Hx; exact Hin2 | apply Hy; exact Hin1]. }
      subst y. f_equal. apply IH; [exact Hs2 | ].
      intros t. split; intros Hin.
      * destruct (proj1 (Hmem t) (or_intror Hin)) as [E | Hin']; [ | exact Hin'].
        subst t. exfalso. apply (str_lt_irrefl x). apply Hx. exact Hin.
      * destruct (proj2 (Hmem t) (or_intror Hin)) as [E | Hin']; [ | exact Hin'].
        subst t. exfalso. apply (str_lt_irrefl x). apply Hy. exact Hin.
Qed.

Lemma py_sorted_set_ext (l1 l2 : list str) :
  (forall t, In t l1 <-> In t l2) ->
  py_sorted (py_set l1) = py_sorted (py_set l2).
Proof.
  intros Hmem.
  destruct (all_distinct_sorted l1) as [S1 [_ [M1 _]]].
  destruct (all_distinct_sorted l2) as [S2 [_ [M2 _]]].
  apply sorted_unique; [exact S1 | exact S2 | ].
  intros t. rewrite M1, M2. apply Hmem.
Qed.

Section MergerMore.

Context {pyobj : Type} {B : Builtins pyobj}.

#[local] Abbreviation sample := (sample_of pyobj).

Lemma next_value_unique (data : list sample) (t : str) (v d : pyobj) :
  NoDup (timestamps data) -> In (t, v) data -> next_value data t d = v.
Proof.
  induction data as [ | [ts w] data IH]; simpl; intros Hnd Hin; [contradiction | ].
  apply NoDup_cons_iff in Hnd as [Hts Hnd].
  destruct (str_eq_dec ts t) as [-> | Hne].
  - destruct Hin as [E | Hin]; [congruence | ].
    exfalso. apply Hts. apply (in_map fst) in Hin. exact Hin.
  - destruct Hin as [E | Hin]; [congruence | ]. apply IH; assumption.
Qed.

Lemma next_value_perm (data data' : list sample) (t : str) (d : pyobj) :
  NoDup (timestamps data) ->
  Permutation data data' ->
  next_value data t d = next_value data' t d.
Proof.
  intros Hnd Hperm.
  assert (Hnd' : NoDup (timestamps data'))
    by (apply (Permutation_NoDup (Permutation_map fst Hperm)); exact Hnd).
  destruct (in_dec str_eq_dec t (timestamps data)) as [Hin | Hnot].
  - symmetry. apply next_value_unique; [exact Hnd' | ].
    apply (Permutation_in _ Hperm). apply next_value_present. exact Hin.
  - rewrite (next_value_absent data t d Hnot).
    symmetry. apply next_value_absent. intros Hin. apply Hnot.
    apply (Permutation_in _ (Permutation_sym (Permutation_map fst Hperm))).
    exact Hin.
Qed.

(** X8. When no timestamp is repeated inside a series, the merged view
    does not depend on the order in which the samples arrive. *)
Theorem merge_order_insensitive (heart_data heart_data' spo2_data spo2_data' : list sample) :
  NoDup (timestamps heart_data) ->
  NoDup (timestamps spo2_data) ->
  Permutation heart_data heart_data' ->
  Permutation spo2_data spo2_data' ->
  merged_rows heart_data spo2_data = merged_rows heart_data' spo2_data'.
Proof.
  intros Hh Hs Ph Ps. unfold merged_rows.
  assert (Et : all_times heart_data spo2_data = all_times heart_data' spo2_data').
  { unfold all_times. apply py_sorted_set_ext. intros t.
    rewrite !in_app_iff. unfold timestamps.
    split; intros [H | H]; [left | right | left | right];
      first [ apply (Permutation_in _ (Permutation_map fst Ph)); exact H
            | apply (Permutation_in _ (Permutation_map fst Ps)); exact H
            | apply (Permutation_in _ (Permutation_sym (Permutation_map fst Ph))); exact H
            | apply (Permutation_in _ (Permutation_sym (Permutation_map fst Ps))); exact H ]. }
  rewrite <- Et. apply map_ext. intros t.
  rewrite (next_value_perm heart_data heart_data' t _ Hh Ph).
  rewrite (next_value_perm spo2_data spo2_data' t _ Hs Ps).
  reflexivity.
Qed.

(** X9. Merging is symmetric: exchanging the two series exchanges the two
    value columns and nothing else. *)
Theorem merge_swap (heart_data spo2_data : list sample) :
  merged_rows spo2_data heart_data
  = map (fun row => (row_time row, snd row, snd (fst row)))
        (merged_rows heart_data spo2_data).
Proof.
  unfold merged_rows. rewrite map_map. simpl.
  assert (Et : all_times spo2_data heart_data = all_times heart_data spo2_data).
  { unfold all_times. apply py_sorted_set_ext. intros t.
    rewrite !in_app_iff. tauto. }
  rewrite Et. reflexivity.
Qed.

(** X10. The merged view never has more rows than the two series have
    samples, and it is empty only when both series are. *)
Theorem merged_rows_count_bounds (heart_data spo2_data : list sample) :
  (List.length (merged_rows heart_data spo2_data)
   <= List.length heart_data + List.length spo2_data)%nat
  /\ (merged_rows heart_data spo2_data = [] <-> heart_data = [] /\ spo2_data = []).
Proof.
  split.
  - rewrite merged_rows_length.
    transitivity (List.length (timestamps heart_data ++ timestamps spo2_data)).
    + apply NoDup_incl_length; [apply NoDup_nodup | ].
      intros t Ht. apply nodup_In in Ht. exact Ht.
    + rewrite length_app. unfold timestamps. rewrite !length_map. apply le_n.
  - split.
    + intros Hnil.
      assert (Hnone : forall t, ~ (In t (timestamps heart_data)
                                   \/ In t (timestamps spo2_data))).
      { intros t Ht. apply merged_rows_has_row in Ht. rewrite Hnil in Ht. exact Ht. }
      split.
      * destruct heart_data as [ | [ts v] heart_data]; [reflexivity | ].
        exfalso. apply (Hnone ts). left. left. reflexivity.
      * destruct spo2_data as [ | [ts v] spo2_data]; [reflexivity | ].
        exfalso. apply (Hnone ts). right. left. reflexivity.
    + intros [-> ->]. reflexivity.
Qed.

End MergerMore.

(** ** More on the compact message *)

Section ComposerMore.

Context {pyobj : Type} {B : Builtins pyobj}.

(** X11. When the compact message fits.  A message within the limit is
    returned as it is.  As soon as the limit is larger than the
    HR/SpO2/Time portion the result fits: its length is the smaller of the
    unshortened length and the limit.  When the limit does not exceed that
    portion nothing is trimmed and the result is longer than the limit. *)
Theorem shorten_message_fit (cfg : Config) (latest_hr latest_spo2 : pyobj)
    (timestamp hospitals_link : str) :
  let base := compact_base latest_hr latest_spo2 timestamp in
  let message := base ++ compact_links hospitals_link in
  let out := shorten_message cfg latest_hr latest_spo2 timestamp hospitals_link in
  (len message <= SMS_CHAR_LIMIT cfg -> out = message)
  /\ (len base < SMS_CHAR_LIMIT cfg ->
      len out = Z.min (len message) (SMS_CHAR_LIMIT cfg))
  /\ (SMS_CHAR_LIMIT cfg <= len base ->
      out = message /\ SMS_CHAR_LIMIT cfg < len out).
Proof.
  intros base message out. subst out message.
  rewrite shorten_message_cases. fold base.
  set (links := compact_links hospitals_link).
  set (K := len (base ++ links) - SMS_CHAR_LIMIT cfg).
  assert (HK : K = len base + len links - SMS_CHAR_LIMIT cfg)
    by (unfold K; rewrite len_app; reflexivity).
  assert (Hlinks : 2 <= len links).
  { unfold links, compact_links. rewrite len_app.
    pose proof (len_nonneg hospitals_link). change (len (lit "H:")) with 2. lia. }
  pose proof (len_nonneg base) as Hbase.
  clearbody K links base.
  split; [ | split].
  - intros Hfit. rewrite len_app in Hfit.
    replace (0 <? K) with false by (symmetry; apply Z.ltb_ge; lia).
    reflexivity.
  - intros Hroom. destruct (Z.ltb_spec 0 K) as [Hpos | Hneg]; cbn [andb].
    + replace (K <? len links) with true by (symmetry; apply Z.ltb_lt; lia).
      rewrite !len_app. unfold len in *. rewrite length_firstn. lia.
    + rewrite !len_app. lia.
  - intros Htight.
    replace (K <? len links) with false by (symmetry; apply Z.ltb_ge; lia).
    rewrite andb_false_r. rewrite len_app. split; [reflexivity | lia].
Qed.

End ComposerMore.

(** ** More on the transport *)

Lemma take_fitting_all (width : Z) (chunks : list str) :
  forall n,
    n + len (List.concat chunks) <= width ->
    take_fitting width n chunks = (chunks, []).
Proof.
  induction chunks as [ | c chunks IH]; intros n Hfit; [reflexivity | ].
  rewrite len_concat_cons in Hfit.
  pose proof (len_nonneg (List.concat chunks)) as Hrest.
  simpl. destruct (Z.leb_spec (n + len c) width) as [_ | Hno]; [ | lia].
  rewrite IH by lia. reflexivity.
Qed.

(** Chunks that fit together on one line, the last one not blank, make
    exactly one line. *)
Lemma wrap_chunks_single (width : Z) (chunks : list str) :
  0 < width ->
  chunks <> [] ->
  len (List.concat chunks) <= width ->
  is_blank (last chunks []) = false ->
  wrap_chunks width chunks = Ok [List.concat chunks].
Proof.
  intros Hw Hne Hfit Hlast. unfold wrap_chunks.
  destruct (Z.leb_spec width 0) as [H | _]; [lia | ].
  destruct chunks as [ | c chunks]; [contradiction | ].
  change (List.length (c :: chunks)) with (S (List.length chunks)).
  cbn [wrap_loop]. unfold wrap_line_step.
  assert (E1 : drop_leading_blank (nonempty (@nil str)) (c :: chunks) = c :: chunks)
    by (unfold drop_leading_blank; simpl; rewrite andb_false_r; reflexivity).
  rewrite E1. rewrite take_fitting_all by (rewrite Z.add_0_l; exact Hfit).
  unfold place_long_word, drop_trailing_blank. rewrite Hlast.
  destruct (List.length chunks); reflexivity.
Qed.

Lemma blank_no_visible (c : str) :
  is_blank c = true -> filter (fun x => negb (py_isspace x)) c = [].
Proof.
  unfold is_blank. induction c as [ | x c IH]; simpl; [reflexivity | ].
  intros H. apply andb_true_iff in H as [Hx Hc]. rewrite Hx. simpl. auto.
Qed.

Lemma blanks_no_visible (l : list str) :
  Forall (fun c => is_blank c = true) l ->
  filter (fun x => negb (py_isspace x)) (List.concat l) = [].
Proof.
  induction 1 as [ | c l Hc Hl IH]; simpl; [reflexivity | ].
  rewrite filter_app, IH, (blank_no_visible c Hc). reflexivity.
Qed.

Lemma chunked_visible (width : Z) (tokens lines : list str) :
  chunked width tokens lines ->
  filter (fun x => negb (py_isspace x)) (List.concat lines)
  = filter (fun x => negb (py_isspace x)) (List.concat tokens)
  /\ (List.length lines <= List.length tokens)%nat.
Proof.
  induction 1 as [dropped Hd | dropped toks rest lines Hd Hne Hb Hrest [IH1 IH2]].
  - rewrite (blanks_no_visible dropped Hd). split; [reflexivity | simpl; lia].
  - split.
    + rewrite !concat_app, !filter_app, (blanks_no_visible dropped Hd).
      simpl. rewrite filter_app, IH1. reflexivity.
    + rewrite !length_app. destruct toks; [contradiction | simpl in *; lia].
Qed.

Lemma flat_map_per_contact_length {A} (g : A -> str) (contacts : list str)
    (l : list A) :
  List.length (flat_map (fun x => map (fun number : str => (number, g x)) contacts) l)
  = (List.length l * List.length contacts)%nat.
Proof.
  induction l as [ | x l IH]; simpl; [reflexivity | ].
  rewrite length_app, length_map, IH. reflexivity.
Qed.

Lemma bodies_of_contact_one (contacts : list str) (number body : str) :
  NoDup contacts -> In number contacts ->
  map snd (filter (fun call : str * str => if str_eq_dec (fst call) number then true else false)
                  (map (fun n => (n, body)) contacts))
  = [body].
Proof.
  induction 1 as [ | c contacts Hc Hnd IH]; simpl; [contradiction | ].
  intros [-> | Hin].
  - destruct (str_eq_dec number number) as [_ | Hne]; [ | contradiction].
    simpl. f_equal.
    assert (Hnone : forall l, ~ In number l ->
              map snd (filter (fun call : str * str =>
                                 if str_eq_dec (fst call) number then true else false)
                              (map (fun n => (n, body)) l)) = []).
    { induction l as [ | y l IHl]; simpl; intros Hy; [reflexivity | ].
      destruct (str_eq_dec y number) as [-> | _].
      - exfalso. apply Hy. left. reflexivity.
      - apply IHl. intros H. apply Hy. right. exact H. }
    apply Hnone. exact Hc.
  - destruct (str_eq_dec c number) as [-> | _]; [contradiction | ].
    apply IH. exact Hin.
Qed.

Lemma bodies_of_contact {A} (g : A -> str) (contacts : list str) (number : str)
    (l : list A) :
  NoDup contacts -> In number contacts ->
  map snd (filter (fun call : str * str => if str_eq_dec (fst call) number then true else false)
                  (flat_map (fun x => map (fun n : str => (n, g x)) contacts) l))
  = map g l.
Proof.
  intros Hnd Hin. induction l as [ | x l IH]; simpl; [reflexivity | ].
  rewrite filter_app, map_app, IH.
  rewrite (bodies_of_contact_one contacts number (g x) Hnd Hin). reflexivity.
Qed.

Section TransportMore.

Variable split_chunks : str -> list str.

(** X12. A limit that is not positive.  With credentials and at least one
    contact the wrapping raises [ValueError] whatever the message, and
    nothing catches it; without credentials, or without contacts, the
    function returns before wrapping and sends nothing. *)
Theorem send_with_nonpositive_limit (cfg : Config) (EMERGENCY_CONTACTS : list str)
    (message : str) :
  SMS_CHAR_LIMIT cfg <= 0 ->
  (EMERGENCY_CONTACTS <> [] ->
   send_twilio_alert split_chunks cfg true EMERGENCY_CONTACTS message = ValueError)
  /\ send_twilio_alert split_chunks cfg false EMERGENCY_CONTACTS message = Ok []
  /\ send_twilio_alert split_chunks cfg true [] message = Ok [].
Proof.
  intros Hlimit. unfold send_twilio_alert, wrap, wrap_chunks.
  apply Z.leb_le in Hlimit. rewrite Hlimit.
  split; [ | split; reflexivity].
  destruct EMERGENCY_CONTACTS; [contradiction | reflexivity].
Qed.

(** X13. A message that fits is sent whole: when the tokenizer's chunks
    make up the message, do not end with a blank chunk and fit the limit
    together, every contact gets exactly one SMS whose body is the
    message, without a part prefix. *)
Theorem fitting_message_sent_whole (cfg : Config) (EMERGENCY_CONTACTS : list str)
    (message : str) :
  message <> [] ->
  List.concat (split_chunks message) = message ->
  is_blank (last (split_chunks message) []) = false ->
  len message <= SMS_CHAR_LIMIT cfg ->
  EMERGENCY_CONTACTS <> [] ->
  send_twilio_alert split_chunks cfg true EMERGENCY_CONTACTS message
  = Ok (map (fun number => (number, message)) EMERGENCY_CONTACTS).
Proof.
  intros Hne Hcat Hlast Hfit Hcontacts.
  assert (Hpos : 0 < SMS_CHAR_LIMIT cfg).
  { destruct message; [contradiction | ]. unfold len in Hfit. simpl in Hfit. lia. }
  assert (Htok : split_chunks message <> [])
    by (intros E; rewrite E in Hcat; simpl in Hcat; congruence).
  unfold send_twilio_alert, wrap.
  rewrite (wrap_chunks_single _ _ Hpos Htok) by (rewrite ?Hcat; assumption).
  rewrite Hcat.
  destruct EMERGENCY_CONTACTS as [ | c cs]; [contradiction | ].
  simpl. rewrite app_nil_r. reflexivity.
Qed.

(** X14. Every contact gets every part.  The number of SMS is the number
    of chunks times the number of contacts, and, the contacts being
    distinct, the bodies sent to one contact are the parts in order, from
    part 1 to the last. *)
Theorem every_contact_gets_every_part (cfg : Config) (EMERGENCY_CONTACTS : list str)
    (message : str) :
  0 < SMS_CHAR_LIMIT cfg ->
  EMERGENCY_CONTACTS <> [] ->
  exists chunks calls,
    wrap split_chunks message (SMS_CHAR_LIMIT cfg) = Ok chunks
    /\ send_twilio_alert split_chunks cfg true EMERGENCY_CONTACTS message = Ok calls
    /\ List.length calls = (List.length chunks * List.length EMERGENCY_CONTACTS)%nat
    /\ (NoDup EMERGENCY_CONTACTS ->
        forall number, In number EMERGENCY_CONTACTS ->
          map snd (filter (fun call : str * str =>
                             if str_eq_dec (fst call) number then true else false)
                          calls)
          = map (fun part => part_body (List.length chunks) (fst part) (snd part))
                (enumerate chunks 1)).
Proof.
  intros Hlimit Hcontacts.
  destruct (wrap_chunks_ok (SMS_CHAR_LIMIT cfg) (split_chunks message) Hlimit)
    as [chunks [Hwrap _]].
  exists chunks.
  exists (flat_map
            (fun part : nat * str =>
               map (fun number : str =>
                      (number, part_body (List.length chunks) (fst part) (snd part)))
                   EMERGENCY_CONTACTS)
            (enumerate chunks 1)).
  split; [exact Hwrap | ]. split; [ | split].
  - unfold send_twilio_alert. fold (wrap split_chunks message (SMS_CHAR_LIMIT cfg)).
    unfold wrap at 1. rewrite Hwrap.
    destruct EMERGENCY_CONTACTS as [ | c cs]; [contradiction | ].
    cbn [nonempty andb negb]. f_equal. apply flat_map_ext. intros [i chunk]. reflexivity.
  - rewrite (flat_map_per_contact_length
               (fun part : nat * str =>
                  part_body (List.length chunks) (fst part) (snd part))).
    f_equal. clear. generalize 1%nat.
    induction chunks as [ | c chunks IH]; intros k; simpl; [reflexivity | ].
    rewrite IH. reflexivity.
  - intros Hnd number Hin.
    apply (bodies_of_contact
             (fun part : nat * str =>
                part_body (List.length chunks) (fst part) (snd part))
             EMERGENCY_CONTACTS number _ Hnd Hin).
Qed.

(** X15. Chunking keeps the text: the characters of the chunks that are
    not whitespace are those of the tokenized message, in the same order,
    and there are no more chunks than the tokenizer gave pieces. *)
Theorem chunking_keeps_visible_text (width : Z) (text : str) :
  0 < width ->
  exists lines,
    wrap split_chunks text width = Ok lines
    /\ filter (fun x => negb (py_isspace x)) (List.concat lines)
       = filter (fun x => negb (py_isspace x)) (List.concat (split_chunks text))
    /\ (List.length lines <= List.length (split_chunks text))%nat.
Proof.
  intros Hw.
  destruct (wrap_chunks_ok width (split_chunks text) Hw) as [lines [Hwrap Hch]].
  exists lines. split; [exact Hwrap | ].
  apply (chunked_visible width). exact Hch.
Qed.

End TransportMore.

(** ** The contact list *)

Lemma lstrip_spec (s : str) :
  exists p, s = p ++ lstrip s
            /\ Forall (fun c => py_isspace c = true) p
            /\ (lstrip s = [] \/ py_isspace (hd 0%N (lstrip s)) = false).
Proof.
  induction s as [ | c s [p [E [Hp Hhd]]]]; simpl.
  - exists []. repeat split; auto.
  - destruct (py_isspace c) eqn:Hc.
    + exists (c :: p). split; [simpl; rewrite <- E; reflexivity | ].
      split; [constructor; assumption | exact Hhd].
    + exists []. split; [reflexivity | ]. split; [constructor | right; exact Hc].
Qed.

Lemma lstrip_id (s : str) :
  s = [] \/ py_isspace (hd 0%N s) = false -> lstrip s = s.
Proof.
  destruct s as [ | c s]; simpl; [reflexivity | ].
  intros [H | H]; [discriminate | rewrite H; reflexivity].
Qed.

Lemma last_rev {A} (l : list A) (d : A) : last (List.rev l) d = hd d l.
Proof.
  destruct l as [ | x l]; simpl; [reflexivity | apply last_last].
Qed.

Lemma hd_rev {A} (l : list A) (d : A) : hd d (List.rev l) = last l d.
Proof. rewrite <- (last_rev (List.rev l)), rev_involutive. reflexivity. Qed.

Lemma rstrip_spec (s : str) :
  exists q, s = rstrip s ++ q
            /\ Forall (fun c => py_isspace c = true) q
            /\ (rstrip s = [] \/ py_isspace (last (rstrip s) 0%N) = false).
Proof.
  unfold rstrip. destruct (lstrip_spec (List.rev s)) as [p [E [Hp Hhd]]].
  exists (List.rev p). split; [ | split].
  - rewrite <- rev_app_distr, <- E, rev_involutive. reflexivity.
  - apply Forall_rev. exact Hp.
  - destruct Hhd as [-> | Hhd]; [left; reflexivity | right].
    rewrite last_rev. exact Hhd.
Qed.

Lemma strip_spec (s : str) :
  exists p q, s = p ++ strip s ++ q
              /\ (strip s = []
                  \/ (py_isspace (hd 0%N (strip s)) = false
                      /\ py_isspace (last (strip s) 0%N) = false)).
Proof.
  unfold strip.
  destruct (lstrip_spec s) as [p [E1 [_ Hhd]]].
  destruct (rstrip_spec (lstrip s)) as [q [E2 [_ Hlast]]].
  exists p, q. split; [rewrite <- E2; exact E1 | ].
  destruct Hlast as [Hnil | Hlast]; [left; exact Hnil | ].
  destruct (rstrip (lstrip s)) as [ | c r] eqn:Er; [left; reflexivity | right].
  split; [ | exact Hlast].
  destruct Hhd as [Hnil | Hhd]; [rewrite Hnil in E2; discriminate E2 | ].
  rewrite E2 in Hhd. exact Hhd.
Qed.

Lemma strip_id (c : str) :
  py_isspace (hd 0%N c) = false ->
  py_isspace (last c 0%N) = false ->
  strip c = c.
Proof.
  intros Hhd Hlast. unfold strip.
  rewrite (lstrip_id c) by (right; exact Hhd).
  unfold rstrip. rewrite lstrip_id; [apply rev_involutive | ].
  right. rewrite hd_rev. exact Hlast.
Qed.

Lemma split_on_no_sep (sep : char) (s : str) :
  Forall (fun field => ~ In sep field) (split_on sep s).
Proof.
  induction s as [ | c s IH]; simpl.
  - constructor; [intros [] | constructor].
  - destruct (N.eqb_spec c sep) as [-> | Hne].
    + constructor; [intros [] | exact IH].
    + destruct (split_on sep s) as [ | field fields].
      * constructor; [intros [E | []]; congruence | constructor].
      * inversion IH as [ | ? ? Hf Hfs]; subst.
        constructor; [ | exact Hfs].
        intros [E | Hin]; [congruence | exact (Hf Hin)].
Qed.

Lemma split_on_field (sep : char) (c : str) :
  ~ In sep c -> split_on sep c = [c].
Proof.
  induction c as [ | x c IH]; simpl; intros Hno; [reflexivity | ].
  destruct (N.eqb_spec x sep) as [-> | _].
  - exfalso. apply Hno. left. reflexivity.
  - rewrite IH by (intros H; apply Hno; right; exact H). reflexivity.
Qed.

Lemma split_on_app (sep : char) (c rest : str) :
  ~ In sep c -> split_on sep (c ++ sep :: rest) = c :: split_on sep rest.
Proof.
  induction c as [ | x c IH]; simpl; intros Hno.
  - rewrite N.eqb_refl. reflexivity.
  - destruct (N.eqb_spec x sep) as [-> | _].
    + exfalso. apply Hno. left. reflexivity.
    + rewrite IH by (intros H; apply Hno; right; exact H). reflexivity.
Qed.

Lemma split_on_join (sep : char) (cs : list str) :
  cs <> [] ->
  Forall (fun c => ~ In sep c) cs ->
  split_on sep (join [sep] cs) = cs.
Proof.
  induction cs as [ | c cs IH]; intros Hne Hno; [contradiction | ].
  inversion Hno as [ | ? ? Hc Hcs]; subst.
  destruct cs as [ | c' cs].
  - simpl. apply split_on_field. exact Hc.
  - change (join [sep] (c :: c' :: cs)) with (c ++ sep :: join [sep] (c' :: cs)).
    rewrite split_on_app by exact Hc.
    rewrite IH; [reflexivity | discriminate | exact Hcs].
Qed.

(** X16. The contacts read from the environment are clean: none is empty,
    none contains a comma, and none starts or ends with whitespace. *)
Theorem contacts_are_clean (v : option str) :
  Forall (fun c => c <> []
                   /\ ~ In COMMA c
                   /\ py_isspace (hd 0%N c) = false
                   /\ py_isspace (last c 0%N) = false)
         (EMERGENCY_CONTACTS_of_env v).
Proof.
  unfold EMERGENCY_CONTACTS_of_env. apply Forall_forall. intros c Hin.
  apply in_map_iff in Hin as [field [<- Hin]].
  apply filter_In in Hin as [Hfield Hne].
  pose proof (split_on_no_sep COMMA (getenv v DEFAULT_CONTACTS)) as Hno.
  rewrite Forall_forall in Hno. specialize (Hno field Hfield).
  destruct (strip_spec field) as [p [q [E Hends]]].
  split; [intros Hnil; rewrite Hnil in Hne; discriminate Hne | ].
  split.
  - intros Hc. apply Hno. rewrite E. apply in_or_app. right.
    apply in_or_app. left. exact Hc.
  - destruct Hends as [Hnil | Hends]; [rewrite Hnil in Hne; discriminate Hne | ].
    exact Hends.
Qed.

(** X17. Writing a list of clean contacts with commas between them and
    reading it back gives the list: contacts that are not empty, contain
    no comma and neither start nor end with whitespace survive the
    round trip, in order. *)
Theorem contacts_round_trip (contacts : list str) :
  Forall (fun c => c <> []
                   /\ ~ In COMMA c
                   /\ py_isspace (hd 0%N c) = false
                   /\ py_isspace (last c 0%N) = false) contacts ->
  EMERGENCY_CONTACTS_of_env (Some (join [COMMA] contacts)) = contacts.
Proof.
  intros Hclean. unfold EMERGENCY_CONTACTS_of_env. simpl getenv.
  destruct contacts as [ | c0 cs0]; [reflexivity | ].
  rewrite split_on_join;
    [ | discriminate
      | apply Forall_impl with (2 := Hclean); intros c [_ [H _]]; exact H ].
  rewrite Forall_forall in Hclean.
  assert (Hstrip : forall c, In c (c0 :: cs0) -> strip c = c)
    by (intros c Hc; destruct (Hclean c Hc) as [_ [_ [H1 H2]]];
        apply strip_id; assumption).
  assert (Hkeep : filter (fun c => nonempty (strip c)) (c0 :: cs0) = c0 :: cs0).
  { apply forallb_filter_id. apply forallb_forall. intros c Hc.
    rewrite (Hstrip c Hc). destruct (Hclean c Hc) as [Hne _].
    destruct c; [contradiction | reflexivity]. }
  rewrite Hkeep.
  rewrite (map_ext_in strip (fun c => c) (c0 :: cs0) Hstrip). apply map_id.
Qed.

(** ** The document store *)

Section CosmosFacts.

Context {pyobj : Type} {B : Builtins pyobj}.

#[local] Abbreviation sample := (sample_of pyobj).

Variable utc_iso : str -> option str.
Variable uuid4 : nat -> str.
Variable utc_now : nat -> str.

(** What one turn of a building loop does to the contents, to the owner
    of the documents and to the ids. *)
Lemma add_doc_spec (user_id : str) (kind : vital) (st : build_state) (s : sample) :
  let st' := add_doc utc_iso uuid4 utc_now user_id kind st s in
  map doc_content (docs st')
  = map doc_content (docs st) ++ sample_content utc_iso kind s
  /\ uuid_calls st' = S (uuid_calls st)
  /\ (exists new, docs st' = docs st ++ new
                  /\ Forall (fun d => doc_userId d = user_id
                                      /\ doc_id d = uuid4 (uuid_calls st)) new).
Proof.
  destruct s as [t v]. unfold add_doc, sample_content. simpl.
  destruct (utc_iso t) as [ts | ]; [destruct (py_float v) as [x | ] | ]; simpl.
  - rewrite map_app. split; [reflexivity | ]. split; [reflexivity | ].
    eexists. split; [reflexivity | ]. constructor; [split; reflexivity | constructor].
  - rewrite app_nil_r. split; [reflexivity | ]. split; [reflexivity | ].
    exists []. split; [rewrite app_nil_r; reflexivity | constructor].
  - rewrite app_nil_r. split; [reflexivity | ]. split; [reflexivity | ].
    exists []. split; [rewrite app_nil_r; reflexivity | constructor].
Qed.

Lemma build_loop_spec (user_id : str) (kind : vital) (data : list sample) :
  forall st,
    let st' := fold_left (add_doc utc_iso uuid4 utc_now user_id kind) data st in
    map doc_content (docs st')
    = map doc_content (docs st) ++ flat_map (sample_content utc_iso kind) data
    /\ uuid_calls st' = (uuid_calls st + List.length data)%nat
    /\ (exists new, docs st' = docs st ++ new
                    /\ Forall (fun d => doc_userId d = user_id) new
                    /\ exists idxs, map doc_id new = map uuid4 idxs
                                    /\ StronglySorted lt idxs
                                    /\ Forall (fun i => uuid_calls st <= i < uuid_calls st')%nat
                                              idxs).
Proof.
  induction data as [ | s data IH]; intros st; simpl.
  - rewrite app_nil_r. split; [reflexivity | ]. split; [lia | ].
    exists []. split; [rewrite app_nil_r; reflexivity | ].
    split; [constructor | ]. exists []. repeat split; constructor.
  - destruct (add_doc_spec user_id kind st s) as [Hc [Hu [new1 [Hd1 Hn1]]]].
    destruct (IH (add_doc utc_iso uuid4 utc_now user_id kind st s))
      as [Hc' [Hu' [new2 [Hd2 [Hn2 [idxs [Hids [Hsorted Hrange]]]]]]]].
    simpl in *.
    split; [rewrite Hc', Hc, <- app_assoc; reflexivity | ].
    split; [rewrite Hu', Hu; lia | ].
    exists (new1 ++ new2).
    split; [rewrite Hd2, Hd1, <- app_assoc; reflexivity | ].
    split.
    + apply Forall_app. split; [ | exact Hn2].
      apply Forall_impl with (2 := Hn1). intros d [H _]. exact H.
    + exists (map (fun _ => uuid_calls st) new1 ++ idxs).
      split; [ | split].
      * rewrite !map_app, Hids, map_map. f_equal.
        apply map_ext_in. intros d Hd. rewrite Forall_forall in Hn1.
        apply (Hn1 d Hd).
      * rewrite Forall_forall in Hrange.
        destruct new1 as [ | d1 [ | d2 new1]]; simpl.
        -- exact Hsorted.
        -- constructor; [exact Hsorted | ].
           apply Forall_forall. intros i Hi. specialize (Hrange i Hi). lia.
        -- exfalso. clear - Hd1.
           unfold add_doc in Hd1. destruct s as [t v].
           destruct (utc_iso t); [destruct (py_float v) | ]; simpl in Hd1;
             apply (f_equal (@List.length document)) in Hd1;
             rewrite !length_app in Hd1; simpl in Hd1; lia.
      * apply Forall_app. split.
        -- apply Forall_forall. intros i Hi. apply in_map_iff in Hi as [_ [<- _]].
           rewrite Hu', Hu. lia.
        -- apply Forall_impl with (2 := Hrange). intros i Hi. rewrite Hu in Hi. lia.
Qed.

Lemma StronglySorted_app_lt (l1 l2 : list nat) :
  StronglySorted lt l1 ->
  StronglySorted lt l2 ->
  (forall a b, In a l1 -> In b l2 -> (a < b)%nat) ->
  StronglySorted lt (l1 ++ l2).
Proof.
  induction 1 as [ | x l1 Hs IH Hx]; intros H2 Hlt; simpl; [exact H2 | ].
  constructor.
  - apply IH; [exact H2 | ]. intros a b Ha Hb. apply Hlt; [right; exact Ha | exact Hb].
  - apply Forall_app. split; [exact Hx | ].
    apply Forall_forall. intros b Hb. apply Hlt; [left; reflexivity | exact Hb].
Qed.

(** The documents [save_to_cosmos] builds. *)
Lemma build_docs_spec (heart_data spo2_data : list sample) (user_id : str) :
  let ds := docs (build_docs utc_iso uuid4 utc_now heart_data spo2_data user_id) in
  map doc_content ds
  = flat_map (sample_content utc_iso HeartRate) heart_data
      ++ flat_map (sample_content utc_iso SpO2) spo2_data
  /\ Forall (fun d => doc_userId d = user_id) ds
  /\ exists idxs, map doc_id ds = map uuid4 idxs /\ StronglySorted lt idxs.
Proof.
  unfold build_docs.
  set (st0 := {| docs := []; uuid_calls := 0; now_calls := 0 |}).
  destruct (build_loop_spec user_id HeartRate heart_data st0)
    as [Hc1 [_ [new1 [Hd1 [Hu1 [idxs1 [Hi1 [Hs1 Hr1]]]]]]]].
  destruct (build_loop_spec user_id SpO2 spo2_data
              (fold_left (add_doc utc_iso uuid4 utc_now user_id HeartRate)
                         heart_data st0))
    as [Hc2 [_ [new2 [Hd2 [Hu2 [idxs2 [Hi2 [Hs2 Hr2]]]]]]]].
  cbv zeta in *. rewrite Hc2, Hc1. change (docs st0) with (@nil document) in *.
  simpl app in *.
  split; [reflexivity | ].
  rewrite Hd2, Hd1. split.
  - apply Forall_app. split; assumption.
  - exists (idxs1 ++ idxs2). rewrite !map_app, Hi1, Hi2.
    split; [reflexivity | ].
    apply StronglySorted_app_lt; [exact Hs1 | exact Hs2 | ].
    intros a b Ha Hb. rewrite Forall_forall in Hr1, Hr2.
    specialize (Hr1 a Ha). specialize (Hr2 b Hb). lia.
Qed.

(** X18. What is stored.  The documents are, in order, those of the
    heart-rate samples and then those of the oxygen samples; a sample
    yields a document exactly when its timestamp converts and its value is
    numeric, and the document carries the converted timestamp and the
    value; every document belongs to the given user. *)
Theorem stored_documents (create_item : document -> bool)
    (heart_data spo2_data : list sample) (user_id : str) :
  exists report,
    save_to_cosmos utc_iso uuid4 utc_now (Some create_item)
      heart_data spo2_data user_id = Some report
    /\ map (fun a => doc_content (fst a)) (attempts report)
       = flat_map (sample_content utc_iso HeartRate) heart_data
           ++ flat_map (sample_content utc_iso SpO2) spo2_data
    /\ Forall (fun a => doc_userId (fst a) = user_id) (attempts report).
Proof.
  destruct (build_docs_spec heart_data spo2_data user_id) as [Hc [Hu _]].
  unfold save_to_cosmos. eexists. split; [reflexivity | ]. simpl. split.
  - rewrite <- Hc. rewrite map_map. apply map_ext. reflexivity.
  - apply Forall_forall. intros a Ha. apply in_map_iff in Ha as [d [<- Hd]].
    rewrite Forall_forall in Hu. apply Hu. exact Hd.
Qed.

Lemma sample_content_length (kind : vital) (data : list sample) :
  (List.length (flat_map (sample_content utc_iso kind) data) <= List.length data)%nat.
Proof.
  induction data as [ | s data IH]; simpl; [lia | ].
  rewrite length_app. unfold sample_content at 1.
  destruct (utc_iso (fst s)); [destruct (py_float (snd s)) | ]; simpl; lia.
Qed.

(** X19. The count in the closing message is the number of documents
    built, whatever the inserts did: it is the number of inserts tried,
    it is the same with any other container, the inserts that succeeded
    may be fewer, and it is at most the number of samples. *)
Theorem reported_count_ignores_failures (create_item create_item' : document -> bool)
    (heart_data spo2_data : list sample) (user_id : str) :
  exists report report',
    save_to_cosmos utc_iso uuid4 utc_now (Some create_item)
      heart_data spo2_data user_id = Some report
    /\ save_to_cosmos utc_iso uuid4 utc_now (Some create_item')
         heart_data spo2_data user_id = Some report'
    /\ reported report = List.length (attempts report)
    /\ reported report' = reported report
    /\ (List.length (filter snd (attempts report)) <= reported report)%nat
    /\ (reported report <= List.length heart_data + List.length spo2_data)%nat.
Proof.
  destruct (build_docs_spec heart_data spo2_data user_id) as [Hc _].
  unfold save_to_cosmos. do 2 eexists.
  split; [reflexivity | ]. split; [reflexivity | ]. simpl.
  split; [rewrite length_map; reflexivity | ]. split; [reflexivity | ].
  split.
  - transitivity (List.length
                    (map (fun doc => (doc, create_item doc))
                       (docs (build_docs utc_iso uuid4 utc_now heart_data
                                spo2_data user_id)))).
    + apply filter_length_le.
    + rewrite length_map. apply le_n.
  - rewrite <- (length_map doc_content), Hc, length_app.
    pose proof (sample_content_length HeartRate heart_data).
    pose proof (sample_content_length SpO2 spo2_data). lia.
Qed.

(** X20. Each document has its own id: when two calls of [uuid4] never
    give the same string, no two documents of a run share an id. *)
Theorem document_ids_distinct (create_item : document -> bool)
    (heart_data spo2_data : list sample) (user_id : str) :
  (forall i j, uuid4 i = uuid4 j -> i = j) ->
  exists report,
    save_to_cosmos utc_iso uuid4 utc_now (Some create_item)
      heart_data spo2_data user_id = Some report
    /\ NoDup (map (fun a => doc_id (fst a)) (attempts report)).
Proof.
  intros Hinj.
  destruct (build_docs_spec heart_data spo2_data user_id)
    as [_ [_ [idxs [Hids Hsorted]]]].
  unfold save_to_cosmos. eexists. split; [reflexivity | ]. simpl.
  rewrite map_map. simpl.
  replace (map (fun x => doc_id x)
             (docs (build_docs utc_iso uuid4 utc_now heart_data spo2_data user_id)))
    with (map uuid4 idxs) by (rewrite <- Hids; apply map_ext; reflexivity).
  clear Hids. induction Hsorted as [ | i idxs Hs IH Hi]; simpl; constructor.
  - intros Hin. apply in_map_iff in Hin as [j [E Hj]]. apply Hinj in E. subst j.
    rewrite Forall_forall in Hi. specialize (Hi i Hj). lia.
  - exact IH.
Qed.

End CosmosFacts.

(** ** Fetching a series *)

Section GetDatasetFacts.

Context {pyobj : Type}.

Variable py_lower : str -> str.
Variable ist_iso : option pyobj -> option str.



Lemma collect_points_app (before after : list (point pyobj)) :
  collect_points ist_iso (before ++ after)
  = match collect_points ist_iso before, collect_points ist_iso after with
    | Returned l1, Returned l2 => Returned (l1 ++ l2)
    | _, _ => Raised
    end.
Proof.
  induction before as [ | p before IH]; simpl.
  - destruct (collect_points ist_iso after); reflexivity.
  - destruct (ist_iso (startTimeNanos p)); [ | reflexivity].
    rewrite IH.
    destruct (collect_points ist_iso before) as [l1 | ]; [ | reflexivity].
    destruct (collect_points ist_iso after) as [l2 | ]; [ | destruct (point_val p); reflexivity].
    destruct (point_val p); reflexivity.
Qed.

(** X22. Points that carry no reading leave no trace.  A point whose
    timestamp converts is dropped when its list of values is empty, and
    also when its first value has the key [fpVal] with a null, whatever
    [intVal] holds: the series is the one obtained without the point. *)
Theorem points_without_reading_dropped (before after : list (point pyobj))
    (p : point pyobj) :
  ist_iso (startTimeNanos p) <> None ->
  (point_value p = []
   \/ exists entry rest,
        point_value p = entry :: rest
        /\ dict_lookup entry (lit "fpVal") = Some None) ->
  collect_points ist_iso (before ++ p :: after)
  = collect_points ist_iso (before ++ after).
Proof.
  intros Hts Hval.
  assert (Hnone : point_val p = None).
  { unfold point_val. destruct Hval as [-> | [entry [rest [-> ->]]]]; reflexivity. }
  rewrite !collect_points_app. simpl.
  destruct (ist_iso (startTimeNanos p)); [ | contradiction].
  rewrite Hnone.
  destruct (collect_points ist_iso before); [ | reflexivity].
  destruct (collect_points ist_iso after); reflexivity.
Qed.

(** X23. The samples of a fetch.  When the points are collected without
    an exception there are at most as many samples as points, and every
    sample is the converted timestamp of a point together with its
    reading, which is the [fpVal] of the point's first value when that
    key is present and its [intVal] otherwise. *)
Theorem collected_samples (points : list (point pyobj))
    (samples : list (sample_of pyobj)) :
  collect_points ist_iso points = Returned samples ->
  (List.length samples <= List.length points)%nat
  /\ Forall (fun s =>
               exists p entry rest,
                 In p points
                 /\ ist_iso (startTimeNanos p) = Some (fst s)
                 /\ point_value p = entry :: rest
                 /\ match dict_lookup entry (lit "fpVal") with
                    | Some val => val = Some (snd s)
                    | None => dict_lookup entry (lit "intVal") = Some (Some (snd s))
                    end)
            samples.
Proof.
  revert samples. induction points as [ | p points IH]; simpl; intros samples.
  - intros E. injection E as <-. split; [simpl; lia | constructor].
  - destruct (ist_iso (startTimeNanos p)) as [t | ] eqn:Et; [ | discriminate].
    destruct (collect_points ist_iso points) as [l | ]; [ | discriminate].
    destruct (IH l eq_refl) as [Hlen Hall].
    assert (Hall' : Forall (fun s =>
               exists q entry rest,
                 (p = q \/ In q points)
                 /\ ist_iso (startTimeNanos q) = Some (fst s)
                 /\ point_value q = entry :: rest
                 /\ match dict_lookup entry (lit "fpVal") with
                    | Some val => val = Some (snd s)
                    | None => dict_lookup entry (lit "intVal") = Some (Some (snd s))
                    end) l).
    { apply Forall_impl with (2 := Hall).
      intros s [q [entry [rest [Hq H]]]]. exists q, entry, rest. auto. }
    destruct (point_val p) as [val | ] eqn:Ev; intros E; injection E as <-.
    + split; [simpl; lia | ]. constructor; [ | exact Hall'].
      unfold point_val in Ev.
      destruct (point_value p) as [ | entry rest] eqn:Epv; [discriminate | ].
      exists p, entry, rest. split; [left; reflexivity | ].
      split; [exact Et | ]. split; [exact Epv | ]. simpl.
      destruct (dict_lookup entry (lit "fpVal")) as [fp | ]; [exact Ev | ].
      destruct (dict_lookup entry (lit "intVal")) as [iv | ];
        [rewrite Ev; reflexivity | discriminate].
    + split; [lia | exact Hall'].
Qed.

(** X24. The first matching source decides.  The search stops at the
    first source whose id or type name contains the keyword; when that
    source has no id, or an empty one, the fetch gives the empty series,
    whatever sources follow it. *)
Theorem first_matching_source_decides (before after : list data_source)
    (ds : data_source) (fetch : str -> option (list (point pyobj)))
    (data_type_keyword : str) :
  (forall d, In d before -> source_matches py_lower data_type_keyword d = false) ->
  source_matches py_lower data_type_keyword ds = true ->
  find_source py_lower data_type_keyword (before ++ ds :: after)
  = Some (dataStreamId ds)
  /\ (dataStreamId ds = None \/ dataStreamId ds = Some [] ->
      get_dataset py_lower ist_iso (Some (before ++ ds :: after)) fetch
        data_type_keyword = Returned []).
Proof.
  intros Hbefore Hds.
  assert (Hfind : find_source py_lower data_type_keyword (before ++ ds :: after)
                  = Some (dataStreamId ds)).
  { induction before as [ | d before IH]; simpl.
    - rewrite Hds. reflexivity.
    - rewrite (Hbefore d (or_introl eq_refl)). apply IH.
      intros d' Hd'. apply Hbefore. right. exact Hd'. }
  split; [exact Hfind | ].
  intros Hid. unfold get_dataset. rewrite Hfind.
  destruct Hid as [-> | ->]; reflexivity.
Qed.

End GetDatasetFacts.

(** ** The run *)

Section MainFacts.

Context {pyobj : Type} {B : Builtins pyobj}.

Variable py_lower : str -> str.
Variable ist_iso : option pyobj -> option str.
Variable utc_iso : str -> option str.
Variable uuid4 : nat -> str.
Variable utc_now : nat -> str.
Variable split_chunks : str -> list str.

(** X25. The alert reports the latest readings.  When an alert is needed
    in compact mode, the message handed to the SMS step is composed from
    the value of the last heart-rate sample and the latest oxygen value,
    whichever sample raised the alert: it starts with [HR:] followed by
    that last value. *)
Theorem alert_reports_latest (cfg : Config) (container : option (document -> bool))
    (credentials : bool) (EMERGENCY_CONTACTS : list str) (now hospitals_link : str)
    (heart_data spo2_data : list (sample_of pyobj)) (ts : str) (v : pyobj) :
  TRIAL_ACCOUNT cfg = true ->
  needs_alert (evaluate_alerts cfg (heart_data ++ [(ts, v)]) spo2_data) = true ->
  exists rest,
    sms_sent (main_with utc_iso uuid4 utc_now split_chunks cfg container
                credentials EMERGENCY_CONTACTS now hospitals_link
                (heart_data ++ [(ts, v)]) spo2_data)
    = Some (send_twilio_alert split_chunks cfg credentials EMERGENCY_CONTACTS
              (lit "HR:" ++ py_format v ++ rest)).
Proof.
  intros Htrial Halert. unfold main_with.
  rewrite evaluate_alerts_unfold in *. unfold needs_alert in Halert. simpl in Halert.
  rewrite Halert. unfold create_alert_message. rewrite Htrial. cbn [sms_sent].
  assert (Hlatest : latest (heart_data ++ [(ts, v)]) = v)
    by (unfold latest; rewrite map_app; apply last_last).
  rewrite Hlatest, shorten_message_cases.
  unfold compact_base.
  destruct (_ && _); rewrite <- !app_assoc; eexists; reflexivity.
Qed.

(** X26. A run without data.  When both fetches give the empty series
    (a request failed, or no source matched), the run does not fail: it
    writes an export with the header alone, hands no document to the
    store, prints no reason and sends no SMS. *)
Theorem run_without_data (cfg : Config)
    (heart_listing spo2_listing : option (list data_source))
    (heart_fetch spo2_fetch : str -> option (list (point pyobj)))
    (container : option (document -> bool))
    (credentials : bool) (EMERGENCY_CONTACTS : list str) (now hospitals_link : str) :
  get_dataset py_lower ist_iso heart_listing heart_fetch (lit "heart_rate")
    = Returned [] ->
  get_dataset py_lower ist_iso spo2_listing spo2_fetch (lit "oxygen_saturation")
    = Returned [] ->
  main py_lower ist_iso utc_iso uuid4 utc_now split_chunks cfg
    heart_listing spo2_listing heart_fetch spo2_fetch container credentials
    EMERGENCY_CONTACTS now hospitals_link
  = Returned
      {| csv_written := (csv_header, []);
         cosmos_saved :=
           match container with
           | Some _ => Some {| attempts := []; reported := 0 |}
           | None => None
           end;
         alert_debug := [];
         sms_sent := None |}.
Proof.
  intros Hheart Hspo2. unfold main. rewrite Hheart, Hspo2.
  unfold main_with, evaluate_alerts. simpl.
  destruct (HR_HIGH_THRESHOLD cfg), container; reflexivity.
Qed.

End MainFacts.

(** ** The further theorems applied to concrete inputs *)

Lemma alert_persists_witness :
  needs_alert (evaluate_alerts default_config example_heart example_spo2) = true
  /\ needs_alert (evaluate_alerts default_config
                    ([] ++ example_heart ++ [(lit "2024-01-01T10:10:00+05:30", TInt 70)])
                    ([] ++ example_spo2 ++ [])) = true.
Proof.
  split; [reflexivity | ].
  apply (alert_persists default_config example_heart example_spo2
           [] [(lit "2024-01-01T10:10:00+05:30", TInt 70)] [] []).
  reflexivity.
Defined.

Lemma reasons_count_bound_witness :
  HR_HIGH_THRESHOLD default_config = None
  /\ (List.length (reasons_of (evaluate_alerts default_config example_heart example_spo2))
      <= List.length example_heart + List.length example_spo2)%nat.
Proof.
  split; [reflexivity | ].
  apply (proj2 (reasons_count_bound default_config example_heart example_spo2)).
  reflexivity.
Defined.

Lemma inverted_bounds_flag_twice_witness :
  let cfg := with_high default_config (float_lit 40) in
  reasons_of (evaluate_alerts cfg [(lit "2024-01-01T10:00:00+05:30", TInt 45)] [])
  = [low_hr_reason cfg (lit "2024-01-01T10:00:00+05:30") (TInt 45);
     high_hr_reason (float_lit 40) (lit "2024-01-01T10:00:00+05:30") (TInt 45)].
Proof.
  intros cfg.
  destruct (inverted_bounds_flag_twice (B := test_builtins) cfg (float_lit 40)
              (float_lit 45) [] [] (lit "2024-01-01T10:00:00+05:30") (TInt 45))
    as [_ H]; [reflexivity | reflexivity | reflexivity | reflexivity | exact H].
Defined.

Lemma nan_value_never_flags_witness :
  py_float (FVal S754_nan) = Some S754_nan
  /\ reasons_of (evaluate_alerts default_config
                   [(lit "2024-01-01T10:00:00+05:30", FVal S754_nan)] [])
     = reasons_of (evaluate_alerts default_config (@nil (sample_of float_obj)) []).
Proof.
  split; [reflexivity | ].
  destruct (nan_value_never_flags (B := float_builtins) default_config
              (lit "2024-01-01T10:00:00+05:30") (FVal S754_nan) eq_refl)
    as [Hheart _].
  exact (proj2 (Hheart [] [] [])).
Defined.

Lemma nan_thresholds_never_alert_witness :
  HR_LOW_THRESHOLD nan_config = S754_nan
  /\ needs_alert (evaluate_alerts nan_config example_heart example_spo2) = false.
Proof.
  split; [reflexivity | ].
  apply (nan_thresholds_never_alert nan_config example_heart example_spo2);
    [reflexivity | reflexivity | right; reflexivity].
Defined.

Lemma readings_in_range_no_alert_witness :
  needs_alert (evaluate_alerts default_config
                 [(lit "2024-01-01T10:05:00+05:30", TInt 72)]
                 [(lit "2024-01-01T10:05:00+05:30", TInt 98)]) = false.
Proof.
  apply (readings_in_range_no_alert default_config
           [(lit "2024-01-01T10:05:00+05:30", TInt 72)]
           [(lit "2024-01-01T10:05:00+05:30", TInt 98)]).
  - intros ts v [E | []]. injection E as <- <-.
    exists (float_lit 72). split; [reflexivity | ]. split; [reflexivity | ].
    intros high H. discriminate H.
  - intros ts v [E | []]. injection E as <- <-.
    exists (float_lit 98). split; reflexivity.
Defined.

Lemma merge_order_insensitive_witness :
  let a := (lit "a", TInt 60) in
  let b := (lit "b", TInt 61) in
  let c := (lit "a", TInt 97) in
  merged_rows [a; b] [c] = merged_rows [b; a] [c].
Proof.
  intros a b c.
  apply (merge_order_insensitive [a; b] [b; a] [c] [c]).
  - constructor; [simpl; intros [E | []]; discriminate E | ].
    constructor; [simpl; tauto | constructor].
  - constructor; [simpl; tauto | constructor].
  - apply perm_swap.
  - apply Permutation_refl.
Defined.

Lemma shorten_message_fit_witness :
  len (compact_base (TInt 72) (TInt 98) example_now)
    < SMS_CHAR_LIMIT (with_limit default_config 60)
  /\ len (shorten_message (with_limit default_config 60) (TInt 72) (TInt 98)
            example_now default_link) = 60.
Proof.
  split; [reflexivity | ].
  destruct (shorten_message_fit (with_limit default_config 60) (TInt 72) (TInt 98)
              example_now default_link) as [_ [H _]].
  rewrite H; reflexivity.
Defined.

Lemma send_with_nonpositive_limit_witness :
  SMS_CHAR_LIMIT (with_limit default_config 0) <= 0
  /\ send_twilio_alert split_chunks_plain (with_limit default_config 0) true
       [lit "+10"] (lit "Low HR") = ValueError.
Proof.
  split; [discriminate | ].
  apply (proj1 (send_with_nonpositive_limit split_chunks_plain
                  (with_limit default_config 0) [lit "+10"] (lit "Low HR")
                  ltac:(discriminate))).
  discriminate.
Defined.

Lemma fitting_message_sent_whole_witness :
  send_twilio_alert split_chunks_plain default_config true
    [lit "+10"; lit "+11"] (lit "HR:48bpm H:x")
  = Ok [(lit "+10", lit "HR:48bpm H:x"); (lit "+11", lit "HR:48bpm H:x")].
Proof.
  apply (fitting_message_sent_whole split_chunks_plain default_config
           [lit "+10"; lit "+11"] (lit "HR:48bpm H:x")).
  - discriminate.
  - reflexivity.
  - reflexivity.
  - discriminate.
  - discriminate.
Defined.

Lemma every_contact_gets_every_part_witness :
  0 < SMS_CHAR_LIMIT (with_limit default_config 5)
  /\ exists chunks calls,
       wrap split_chunks_plain (lit "aaaa bbbb") 5 = Ok chunks
       /\ send_twilio_alert split_chunks_plain (with_limit default_config 5) true
            [lit "+10"; lit "+11"] (lit "aaaa bbbb") = Ok calls
       /\ List.length calls = (List.length chunks * 2)%nat.
Proof.
  split; [reflexivity | ].
  destruct (every_contact_gets_every_part split_chunks_plain
              (with_limit default_config 5) [lit "+10"; lit "+11"] (lit "aaaa bbbb"))
    as [chunks [calls [Hw [Hs [Hl _]]]]]; [reflexivity | discriminate | ].
  exists chunks, calls. split; [exact Hw | ]. split; [exact Hs | exact Hl].
Defined.

Lemma chunking_keeps_visible_text_witness :
  0 < 5
  /\ exists lines,
       wrap split_chunks_plain (lit "aaaa bbbb  cc d") 5 = Ok lines
       /\ filter (fun x => negb (py_isspace x)) (List.concat lines)
          = lit "aaaabbbbccd".
Proof.
  split; [reflexivity | ].
  destruct (chunking_keeps_visible_text split_chunks_plain 5 (lit "aaaa bbbb  cc d"))
    as [lines [Hw [Hv _]]]; [reflexivity | ].
  exists lines. split; [exact Hw | ]. rewrite Hv. reflexivity.
Defined.

Lemma contacts_round_trip_witness :
  EMERGENCY_CONTACTS_of_env (Some (lit "+911,+912")) = [lit "+911"; lit "+912"].
Proof.
  apply (contacts_round_trip [lit "+911"; lit "+912"]).
  repeat constructor; try discriminate; try reflexivity;
    simpl; intros H; repeat (destruct H as [H | H]; [discriminate H | ]); exact H.
Defined.

Lemma document_ids_distinct_witness :
  (forall i j, test_uuid4 i = test_uuid4 j -> i = j)
  /\ exists report,
       save_to_cosmos test_utc_iso test_uuid4 test_utc_now (Some (fun _ => true))
         example_heart example_spo2 (lit "user123") = Some report
       /\ NoDup (map (fun a => doc_id (fst a)) (attempts report)).
Proof.
  assert (Hinj : forall i j, test_uuid4 i = test_uuid4 j -> i = j)
    by (intros i j E; injection E as E; apply Nat2N.inj; exact E).
  split; [exact Hinj | ].
  apply (document_ids_distinct test_utc_iso test_uuid4 test_utc_now
           (fun _ => true) example_heart example_spo2 (lit "user123") Hinj).
Defined.

Lemma points_without_reading_dropped_witness :
  let null_fp := {| startTimeNanos := Some (TInt 1704083400);
                    point_value := [[(lit "fpVal", None);
                                     (lit "intVal", Some (TInt 5))]] |} in
  let good := {| startTimeNanos := Some (TInt 1704083700);
                 point_value := [[(lit "fpVal", Some (TInt 72))]] |} in
  collect_points test_ist_iso [null_fp; good]
  = collect_points test_ist_iso [good].
Proof.
  intros null_fp good.
  apply (points_without_reading_dropped test_ist_iso [] [good] null_fp).
  - discriminate.
  - right. eexists. eexists. split; reflexivity.
Defined.

Lemma collected_samples_witness :
  let good := {| startTimeNanos := Some (TInt 1704083700);
                 point_value := [[(lit "intVal", Some (TInt 72))]] |} in
  collect_points test_ist_iso [good] = Returned [(lit "1704083700", TInt 72)]
  /\ (List.length [(lit "1704083700", TInt 72)] <= List.length [good])%nat.
Proof.
  intros good. split; [reflexivity | ].
  apply (proj1 (collected_samples test_ist_iso [good]
                  [(lit "1704083700", TInt 72)] eq_refl)).
Defined.

Lemma first_matching_source_decides_witness :
  let nameless := {| dataStreamId := None;
                     dataType_name := Some (lit "com.google.heart_rate.bpm") |} in
  let usable := {| dataStreamId := Some (lit "derived:com.google.heart_rate.bpm:x");
                   dataType_name := Some (lit "com.google.heart_rate.bpm") |} in
  get_dataset lower test_ist_iso (Some [nameless; usable])
    (fun _ => Some [{| startTimeNanos := Some (TInt 1704083700);
                       point_value := [[(lit "fpVal", Some (TInt 72))]] |}])
    (lit "heart_rate")
  = Returned [].
Proof.
  intros nameless usable.
  apply (proj2 (first_matching_source_decides lower test_ist_iso [] [usable]
                  nameless _ (lit "heart_rate")
                  ltac:(intros d [])
                  eq_refl)).
  left. reflexivity.
Defined.

Lemma alert_reports_latest_witness :
  TRIAL_ACCOUNT default_config = true
  /\ exists rest,
       sms_sent (main_with test_utc_iso test_uuid4 test_utc_now split_chunks_plain
                   default_config None true [lit "+10"] example_now default_link
                   ([(lit "2024-01-01T10:00:00+05:30", TInt 48)]
                      ++ [(lit "2024-01-01T10:05:00+05:30", TInt 72)])
                   example_spo2)
       = Some (send_twilio_alert split_chunks_plain default_config true [lit "+10"]
                 (lit "HR:" ++ py_format (TInt 72) ++ rest)).
Proof.
  split; [reflexivity | ].
  apply (alert_reports_latest test_utc_iso test_uuid4 test_utc_now split_chunks_plain
           default_config None true [lit "+10"] example_now default_link
           [(lit "2024-01-01T10:00:00+05:30", TInt 48)] example_spo2
           (lit "2024-01-01T10:05:00+05:30") (TInt 72));
    reflexivity.
Defined.

Lemma run_without_data_witness :
  main lower test_ist_iso test_utc_iso test_uuid4 test_utc_now split_chunks_plain
    default_config None (Some []) (fun _ => None) (fun _ => None) None true
    [lit "+10"] example_now default_link
  = Returned {| csv_written := (csv_header, []); cosmos_saved := None;
                alert_debug := []; sms_sent := None |}.
Proof.
  apply (run_without_data (B := test_builtins) lower test_ist_iso test_utc_iso
           test_uuid4 test_utc_now split_chunks_plain default_config
           None (Some []) (fun _ => None) (fun _ => None) None true
           [lit "+10"] example_now default_link);
    reflexivity.
Defined.
